(** * Learning-path endpoints

    A shallow embedding of the request handlers of
    [backend/app/api/v1/endpoints/learning_path.py]:
    [create_learning_path], [enroll_in_learning_path], [get_learning_path],
    [update_path_progress], [get_enrolled_learning_paths] and
    [get_recommended_learning_paths].

    The relational store behind the ORM session is a record of tables, each
    table a list of rows in storage order.  A handler that writes is a
    function from the store to an outcome and the store after the request;
    a handler that only reads returns its outcome alone.

    Scope of the model.
    - Request bodies are typed records: the keys the handlers index
      ([user_id], [path_id]) are present and integers, so the [KeyError] and
      [TypeError] paths that the handlers turn into a 500 do not arise.
    - Python numbers are exact rationals ([Q]); floating-point rounding is not
      modelled.
    - Timestamps are the ISO-8601 texts that appear in the JSON responses. *)

From stdpp Require Import base list gmap strings pretty.
From Stdlib Require Import QArith.
Local Open Scope Z_scope.

(** ** Python values used by the handlers *)

Module Py.

(** Keys of a Python [dict]: an [int] and a [str] are never equal, so
    the test [1 in d] is [False] for a dict [d] whose only key is [str(1)]. *)
Inductive key : Type :=
| KInt (z : Z)
| KStr (s : string).

#[global] Instance key_eq_dec : EqDecision key.
Proof. solve_decision. Defined.

#[global] Instance key_countable : Countable key.
Proof.
  refine (inj_countable'
            (λ k, match k with KInt z => inl z | KStr s => inr s end)
            (λ x, match x with inl z => KInt z | inr s => KStr s end) _).
  by intros [].
Defined.

(** [str(n)] for an [int]. *)
Definition str (n : Z) : string := pretty n.

(** Truthiness of an [Optional[int]]: [None] and [0] are falsy. *)
Definition truthy (v : option Z) : bool :=
  match v with
  | None => false
  | Some n => negb (n =? 0)
  end.

(** [k in d]. *)
Definition contains (k : key) (d : gmap key Q) : bool :=
  bool_decide (is_Some (d !! k)).

(** [sum(d.values())]: starts from [0] and adds each value in turn.  The
    values are exact, so the order in which the dict is walked is
    immaterial. *)
Definition sum_values (d : gmap key Q) : Q :=
  map_fold (λ _ v acc, (acc + v)%Q) 0%Q d.

(** [len(d)]. *)
Definition len (d : gmap key Q) : Z := Z.of_nat (size d).

(** [min(a, b)]: the first argument unless the second is strictly smaller. *)
Definition min (a b : Q) : Q :=
  if Qle_bool a b then a else b.

(** [d or {}]: a [None] column and an empty dict both give the empty dict. *)
Definition or_empty (d : option (gmap key Q)) : gmap key Q :=
  default ∅ d.

End Py.

(** A free-form JSON value (the [personalization_settings] column).  No
    handler inspects one, so no induction principle is generated. *)
Unset Elimination Schemes.
Inductive json : Type :=
| JNull
| JBool (b : bool)
| JNum (q : Q)
| JStr (s : string)
| JList (l : list json)
| JDict (l : list (string * json)).
Set Elimination Schemes.

Definition timestamp : Type := string.

(** ** The models ([app.models]) *)

Module User.
Record t : Type := mk { id : Z }.
End User.

Module LearningContent.
Record t : Type := mk {
  id : Z;
  title : string;
  description : string;
  content_type : string;
  subject : string;
  difficulty_level : Z
}.
End LearningContent.

Record PathMetadata : Type := mkPathMetadata {
  goals : list string;
  prerequisites : list string;
  difficulty : string
}.

Module LearningPath.
Record t : Type := mk {
  id : Z;
  title : string;
  description : string;
  subject : string;
  difficulty_level : Z;
  estimated_hours : option Z;
  path_metadata : PathMetadata;
  created_by : option Z;
  created_at : timestamp;
  contents : list LearningContent.t
}.
End LearningPath.

Module PathEnrollment.
Record t : Type := mk {
  id : Z;
  user_id : Z;
  path_id : Z;
  progress : Q;
  content_progress : option (gmap Py.key Q);
  personalization_settings : json;
  enrolled_at : timestamp;
  last_activity_at : option timestamp
}.

Definition set_content_progress (d : gmap Py.key Q) (e : t) : t :=
  mk (id e) (user_id e) (path_id e) (progress e) (Some d)
     (personalization_settings e) (enrolled_at e) (last_activity_at e).

Definition set_progress (p : Q) (e : t) : t :=
  mk (id e) (user_id e) (path_id e) p (content_progress e)
     (personalization_settings e) (enrolled_at e) (last_activity_at e).

Definition set_last_activity_at (ts : timestamp) (e : t) : t :=
  mk (id e) (user_id e) (path_id e) (progress e) (content_progress e)
     (personalization_settings e) (enrolled_at e) (Some ts).
End PathEnrollment.

(** ** The store *)

Record DB : Type := mkDB {
  users : list User.t;
  learning_paths : list LearningPath.t;
  learning_contents : list LearningContent.t;
  path_enrollments : list PathEnrollment.t
}.

Definition with_enrollments (rows : list PathEnrollment.t) (db : DB) : DB :=
  mkDB (users db) (learning_paths db) (learning_contents db) rows.

(** [query.first()]. *)
Definition first {A : Type} (rows : list A) : option A := head rows.

(** [db.query(User).filter(User.id == user_id)]. *)
Definition query_user (user_id : Z) (db : DB) : list User.t :=
  filter (λ u, User.id u = user_id) (users db).

(** [db.query(LearningPath).filter(LearningPath.id == path_id)]. *)
Definition query_path (path_id : Z) (db : DB) : list LearningPath.t :=
  filter (λ p, LearningPath.id p = path_id) (learning_paths db).

(** [db.query(LearningContent).filter(LearningContent.id == content_id)]. *)
Definition query_content (content_id : Z) (db : DB) : list LearningContent.t :=
  filter (λ c, LearningContent.id c = content_id) (learning_contents db).

(** [db.query(PathEnrollment).filter(PathEnrollment.user_id == user_id,
    PathEnrollment.path_id == path_id)]. *)
Definition query_enrollment (user_id path_id : Z) (db : DB)
  : list PathEnrollment.t :=
  filter (λ e, PathEnrollment.user_id e = user_id
               ∧ PathEnrollment.path_id e = path_id) (path_enrollments db).

(** [db.query(PathEnrollment).filter(PathEnrollment.user_id == user_id)]. *)
Definition query_enrollments_of (user_id : Z) (db : DB)
  : list PathEnrollment.t :=
  filter (λ e, PathEnrollment.user_id e = user_id) (path_enrollments db).

(** Modelled from the spec: the column defaults of [PathEnrollment] and the
    primary-key sequence live in [app.models] and in the storage layer, which
    are not part of this file.  [db.add; db.commit; db.refresh] of a new row
    appends it with a server-assigned id (one past the largest id in the
    table, ids starting at 1) and a server-assigned [enrolled_at]. *)
Definition next_enrollment_id (db : DB) : Z :=
  1 + foldr Z.max 0 (PathEnrollment.id <$> path_enrollments db).

Definition add_enrollment (now : timestamp) (user_id path_id : Z)
    (progress : Q) (content_progress : gmap Py.key Q)
    (personalization_settings : json) (db : DB) : PathEnrollment.t * DB :=
  let row := PathEnrollment.mk (next_enrollment_id db) user_id path_id
               progress (Some content_progress) personalization_settings
               now None in
  (row, with_enrollments (path_enrollments db ++ [row]) db).

(** Modelled from the spec: [PathEnrollment]'s declaration is not part of
    this file, and the handler itself never assigns [last_activity_at]; the
    spec's sentence that the field is updated is the column's on-update
    default.
    [db.commit; db.refresh] of a modified row writes the row back under its
    primary key with [last_activity_at] set to the time of the write, and
    reloads it. *)
Definition commit_enrollment (now : timestamp) (e : PathEnrollment.t)
    (db : DB) : PathEnrollment.t * DB :=
  let row := PathEnrollment.set_last_activity_at now e in
  (row,
   with_enrollments
     ((λ r, if decide (PathEnrollment.id r = PathEnrollment.id e)
            then row else r) <$> path_enrollments db)
     db).

(** ** Outcomes *)

Inductive outcome (A : Type) : Type :=
| Ok (a : A)
| HTTPException (status_code : Z) (detail : string).
Arguments Ok {A} a.
Arguments HTTPException {A} status_code detail.

Definition NotFound {A : Type} (r : outcome A) : Prop :=
  ∃ detail, r = HTTPException 404 detail.

(** The body of a 200 response, if the request succeeded. *)
Definition body {A : Type} (r : outcome A) : option A :=
  match r with
  | Ok a => Some a
  | HTTPException _ _ => None
  end.

(** ** POST /enroll *)

(** The request body: [enrollment_data["user_id"]],
    [enrollment_data["path_id"]] and the optional key
    [personalization_settings] ([None] when the key is absent). *)
Module EnrollmentData.
Record t : Type := mk {
  user_id : Z;
  path_id : Z;
  personalization_settings : option json
}.
End EnrollmentData.

Module EnrollmentOut.
Record t : Type := mk {
  id : Z;
  user_id : Z;
  path_id : Z;
  progress : Q;
  enrolled_at : timestamp;
  content_progress : gmap Py.key Q
}.
End EnrollmentOut.

Definition enrollment_out (e : PathEnrollment.t) : EnrollmentOut.t :=
  EnrollmentOut.mk (PathEnrollment.id e) (PathEnrollment.user_id e)
    (PathEnrollment.path_id e) (PathEnrollment.progress e)
    (PathEnrollment.enrolled_at e)
    (Py.or_empty (PathEnrollment.content_progress e)).

Definition enroll_in_learning_path (now : timestamp)
    (enrollment_data : EnrollmentData.t) (db : DB)
  : outcome EnrollmentOut.t * DB :=
  let user_id := EnrollmentData.user_id enrollment_data in
  let path_id := EnrollmentData.path_id enrollment_data in
  match first (query_user user_id db) with
  | None =>
      (HTTPException 404 ("用户ID " +:+ Py.str user_id +:+ " 不存在"), db)
  | Some user =>
      match first (query_path path_id db) with
      | None =>
          (HTTPException 404
             ("学习路径ID " +:+ Py.str path_id +:+ " 不存在"), db)
      | Some path =>
          match first (query_enrollment user_id path_id db) with
          | Some existing_enrollment =>
              (Ok (enrollment_out existing_enrollment), db)
          | None =>
              let personalization_settings :=
                default (JDict [])
                  (EnrollmentData.personalization_settings enrollment_data) in
              let '(db_enrollment, db') :=
                add_enrollment now user_id path_id 0%Q ∅
                  personalization_settings db in
              (Ok (enrollment_out db_enrollment), db')
          end
      end
  end.

(** ** GET /{path_id} *)

Module ContentOut.
Record t : Type := mk {
  id : Z;
  title : string;
  description : string;
  content_type : string;
  subject : string;
  difficulty_level : Z
}.
End ContentOut.

Module UserProgress.
Record t : Type := mk {
  overall_progress : Q;
  content_progress : gmap Py.key Q;
  enrolled_at : timestamp
}.
End UserProgress.

(** The response of [get_learning_path].  The mock carries a [created_at]
    key that the stored path's response does not have. *)
Module PathDetail.
Record t : Type := mk {
  id : Z;
  title : string;
  description : string;
  subject : string;
  difficulty_level : Z;
  estimated_hours : option Z;
  created_at : option timestamp;
  contents : list ContentOut.t;
  metadata : PathMetadata;
  user_progress : option UserProgress.t
}.
End PathDetail.

(** [a if path_id == 1 else b if path_id == 2 else c]. *)
Definition by_path_id {A : Type} (path_id : Z) (a b c : A) : A :=
  if path_id =? 1 then a else if path_id =? 2 then b else c.

Definition mock_path (path_id : Z) (user_id : option Z) : PathDetail.t :=
  PathDetail.mk
    path_id
    (by_path_id path_id "Python编程基础" "数据分析入门"
       ("测试学习路径 " +:+ Py.str path_id))
    (by_path_id path_id "从零开始学习Python编程" "掌握数据分析基础技能"
       ("这是一个测试学习路径 " +:+ Py.str path_id))
    (by_path_id path_id "programming" "data_science" "other")
    2
    (Some 25)
    (Some "2025-03-28T20:00:00")
    [ ContentOut.mk 101
        (by_path_id path_id "Python基础语法" "数据分析概述" "基础概念")
        (by_path_id path_id "学习Python的基本语法和数据类型"
           "了解数据分析的基本概念和流程" "学习基础知识")
        "video"
        (by_path_id path_id "programming" "data_science" "other")
        1;
      ContentOut.mk 102
        (by_path_id path_id "Python函数和模块" "数据清洗与预处理" "进阶知识")
        (by_path_id path_id "学习如何定义和使用Python函数和模块"
           "学习数据清洗和预处理的基本方法" "深入学习核心概念")
        "interactive"
        (by_path_id path_id "programming" "data_science" "other")
        2 ]
    (mkPathMetadata ["掌握基础语法"; "理解核心概念"] [] "beginner")
    (if Py.truthy user_id
     then Some (UserProgress.mk 0%Q ∅ "2025-03-28T20:00:00")
     else None).

Definition content_out (content : LearningContent.t) : ContentOut.t :=
  ContentOut.mk (LearningContent.id content) (LearningContent.title content)
    (LearningContent.description content)
    (LearningContent.content_type content)
    (LearningContent.subject content)
    (LearningContent.difficulty_level content).

Definition get_learning_path (path_id : Z) (user_id : option Z) (db : DB)
  : outcome PathDetail.t :=
  match first (query_path path_id db) with
  | None => Ok (mock_path path_id user_id)
  | Some path =>
      let contents :=
        foldl (λ contents content, contents ++ [content_out content]) []
          (LearningPath.contents path) in
      let user_progress :=
        match user_id with
        | Some uid =>
            if Py.truthy user_id then
              match first (query_enrollment uid path_id db) with
              | Some enrollment =>
                  Some (UserProgress.mk
                          (PathEnrollment.progress enrollment)
                          (Py.or_empty
                             (PathEnrollment.content_progress enrollment))
                          (PathEnrollment.enrolled_at enrollment))
              | None => None
              end
            else None
        | None => None
        end in
      Ok (PathDetail.mk (LearningPath.id path) (LearningPath.title path)
            (LearningPath.description path) (LearningPath.subject path)
            (LearningPath.difficulty_level path)
            (LearningPath.estimated_hours path)
            None
            contents
            (LearningPath.path_metadata path)
            user_progress)
  end.

(** ** POST /{path_id}/progress *)

(** The request body: [progress_data.get("content_id")] ([None] when the key
    is absent) and [progress_data.get("progress", 0)]. *)
Module ProgressData.
Record t : Type := mk {
  content_id : option Z;
  progress : option Q
}.
End ProgressData.

Module ProgressOut.
Record t : Type := mk {
  id : Z;
  user_id : Z;
  path_id : Z;
  progress : Q;
  content_progress : gmap Py.key Q;
  last_activity_at : option timestamp
}.
End ProgressOut.

Definition progress_out (e : PathEnrollment.t) : ProgressOut.t :=
  ProgressOut.mk (PathEnrollment.id e) (PathEnrollment.user_id e)
    (PathEnrollment.path_id e) (PathEnrollment.progress e)
    (Py.or_empty (PathEnrollment.content_progress e))
    (PathEnrollment.last_activity_at e).

(** The body of [if content_id:], once the content row has been found:
    the per-content write, the guarded recomputation of the aggregate, and
    the commit. *)
Definition record_content_progress (now : timestamp) (path_id cid : Z)
    (progress : Q) (enrollment : PathEnrollment.t) (db : DB)
  : PathEnrollment.t * DB :=
  let content_progress :=
    Py.or_empty (PathEnrollment.content_progress enrollment) in
  let content_progress :=
    <[Py.KStr (Py.str cid) := progress]> content_progress in
  let enrollment :=
    PathEnrollment.set_content_progress content_progress enrollment in
  let enrollment :=
    if Py.contains (Py.KInt path_id) content_progress then
      let total_progress :=
        (Py.sum_values content_progress
         / inject_Z (Py.len content_progress))%Q in
      PathEnrollment.set_progress (Py.min 100 total_progress) enrollment
    else enrollment in
  commit_enrollment now enrollment db.

Definition update_path_progress (now : timestamp) (path_id : Z)
    (progress_data : ProgressData.t) (user_id : Z) (db : DB)
  : outcome ProgressOut.t * DB :=
  match first (query_enrollment user_id path_id db) with
  | None =>
      (HTTPException 404
         ("未找到用户ID " +:+ Py.str user_id +:+ " 在路径ID "
          +:+ Py.str path_id +:+ " 上的注册记录"), db)
  | Some enrollment =>
      let content_id := ProgressData.content_id progress_data in
      let progress := default 0%Q (ProgressData.progress progress_data) in
      match content_id with
      | Some cid =>
          if Py.truthy content_id then
            match first (query_content cid db) with
            | None =>
                (HTTPException 404
                   ("内容ID " +:+ Py.str cid +:+ " 不存在"), db)
            | Some content =>
                let '(enrollment, db') :=
                  record_content_progress now path_id cid progress
                    enrollment db in
                (Ok (progress_out enrollment), db')
            end
          else (Ok (progress_out enrollment), db)
      | None => (Ok (progress_out enrollment), db)
      end
  end.

(** ** GET /enrolled *)

Module EnrolledPath.
Record t : Type := mk {
  id : Z;
  title : string;
  description : string;
  subject : string;
  difficulty_level : Z;
  estimated_hours : option Z;
  created_at : timestamp;
  content_count : nat;
  progress : Q
}.
End EnrolledPath.

(** One entry of the listing; [len(path.contents) if path.contents else 0]
    is the length of the collection. *)
Definition enrolled_path (path : LearningPath.t)
    (enrollment : PathEnrollment.t) : EnrolledPath.t :=
  EnrolledPath.mk (LearningPath.id path) (LearningPath.title path)
    (LearningPath.description path) (LearningPath.subject path)
    (LearningPath.difficulty_level path) (LearningPath.estimated_hours path)
    (LearningPath.created_at path)
    (length (LearningPath.contents path))
    (PathEnrollment.progress enrollment).

Definition get_enrolled_learning_paths (user_id : Z) (db : DB)
  : outcome (list EnrolledPath.t) :=
  let enrollments := query_enrollments_of user_id db in
  match enrollments with
  | [] => Ok []
  | _ =>
      Ok (foldl
            (λ paths enrollment,
               match
                 first (query_path (PathEnrollment.path_id enrollment) db)
               with
               | Some path => paths ++ [enrolled_path path enrollment]
               | None => paths
               end)
            [] enrollments)
  end.

(** ** GET /recommended *)

Module RecommendedPath.
Record t : Type := mk {
  id : Z;
  title : string;
  description : string;
  subject : string;
  difficulty_level : Z;
  estimated_hours : option Z;
  created_at : timestamp;
  content_count : nat
}.
End RecommendedPath.

Definition recommended_path (path : LearningPath.t) : RecommendedPath.t :=
  RecommendedPath.mk (LearningPath.id path) (LearningPath.title path)
    (LearningPath.description path) (LearningPath.subject path)
    (LearningPath.difficulty_level path) (LearningPath.estimated_hours path)
    (LearningPath.created_at path)
    (length (LearningPath.contents path)).

(** [query.limit(n).all()]. *)
Definition limit {A : Type} (n : nat) (rows : list A) : list A := take n rows.

Definition get_recommended_learning_paths (user_id : Z) (db : DB)
  : outcome (list RecommendedPath.t) :=
  match first (query_user user_id db) with
  | None =>
      HTTPException 404 ("用户ID " +:+ Py.str user_id +:+ " 不存在")
  | Some user =>
      let enrolled_path_ids :=
        PathEnrollment.path_id <$> query_enrollments_of user_id db in
      let query :=
        match enrolled_path_ids with
        | [] => learning_paths db
        | _ =>
            filter (λ p, LearningPath.id p ∉ enrolled_path_ids)
              (learning_paths db)
        end in
      let paths := limit 5 query in
      Ok (foldl (λ recommended path, recommended ++ [recommended_path path])
            [] paths)
  end.

(** ** Invariants of the store *)

(** A [content_progress] column is JSON: after a round trip through the
    store every key of the dict is a [str]. *)
Definition str_keys (d : gmap Py.key Q) : Prop :=
  map_Forall (λ k _, ∃ s, k = Py.KStr s) d.

Definition json_keys (db : DB) : Prop :=
  Forall
    (λ e, str_keys (Py.or_empty (PathEnrollment.content_progress e)))
    (path_enrollments db).

(** Primary keys of [LearningContent] rows are assigned by the storage layer
    from 1 upwards; no handler of this file inserts or renumbers a content
    row. *)
Definition content_ids_positive (db : DB) : Prop :=
  Forall (λ c, 0 < LearningContent.id c) (learning_contents db).

(** The snapshot the mock response carries as [user_progress]. *)
Definition mock_user_progress : UserProgress.t :=
  UserProgress.mk 0%Q ∅ "2025-03-28T20:00:00".

(** ** A sample store

    Two users, eight paths, three content items.  User 1 is enrolled in
    paths 1 and 3 and in a path 9 that has since been removed; user 2 has no
    enrollment. *)

Definition demo_content (n : Z) : LearningContent.t :=
  LearningContent.mk n ("unit " +:+ Py.str n) "" "video" "programming" 1.

Definition demo_path (n : Z) (contents : list LearningContent.t)
  : LearningPath.t :=
  LearningPath.mk n ("path " +:+ Py.str n) "" "programming" 2 (Some 25)
    (mkPathMetadata [] [] "beginner") None "2025-03-01T09:00:00" contents.

Definition demo_enrollment (n path_id : Z)
    (content_progress : option (gmap Py.key Q)) : PathEnrollment.t :=
  PathEnrollment.mk n 1 path_id 0%Q content_progress (JDict [])
    "2025-03-02T09:00:00" None.

Definition demo_db : DB :=
  mkDB
    [User.mk 1; User.mk 2]
    [ demo_path 1 [demo_content 101; demo_content 102];
      demo_path 2 [demo_content 103];
      demo_path 3 []; demo_path 4 []; demo_path 5 []; demo_path 6 [];
      demo_path 7 []; demo_path 8 [] ]
    [demo_content 101; demo_content 102; demo_content 103]
    [ demo_enrollment 1 1 (Some ∅);
      demo_enrollment 2 3 None;
      demo_enrollment 3 9 (Some ∅) ].

(** ** POST (create) *)

(** The request body of [create_learning_path].  A field is [None] when the
    key is absent; [title] and [subject] are indexed with
    [path_data[...]], the others read with [path_data.get]. *)
Module PathData.
Record t : Type := mk {
  title : option string;
  description : option string;
  subject : option string;
  difficulty_level : option Z;
  estimated_hours : option Z;
  goals : option (list string);
  prerequisites : option (list string);
  difficulty : option string;
  created_by : option Z
}.
End PathData.

Module PathOut.
Record t : Type := mk {
  id : Z;
  title : string;
  description : string;
  subject : string;
  difficulty_level : Z;
  estimated_hours : option Z;
  created_by : option Z;
  created_at : timestamp
}.
End PathOut.

Definition path_out (p : LearningPath.t) : PathOut.t :=
  PathOut.mk (LearningPath.id p) (LearningPath.title p)
    (LearningPath.description p) (LearningPath.subject p)
    (LearningPath.difficulty_level p) (LearningPath.estimated_hours p)
    (LearningPath.created_by p) (LearningPath.created_at p).

Definition with_paths (rows : list LearningPath.t) (db : DB) : DB :=
  mkDB (users db) rows (learning_contents db) (path_enrollments db).

(** Modelled from the spec: the primary-key sequence and the [created_at]
    default of [LearningPath] belong to [app.models] and the storage layer.
    [db.add; db.commit; db.refresh] of a new path appends it with a
    server-assigned id (one past the largest id in the table), a
    server-assigned [created_at] and no contents.  Foreign keys are not
    enforced by the model. *)
Definition next_path_id (db : DB) : Z :=
  1 + foldr Z.max 0 (LearningPath.id <$> learning_paths db).

Definition add_path (now : timestamp) (title description subject : string)
    (difficulty_level : Z) (estimated_hours : option Z)
    (path_metadata : PathMetadata) (created_by : option Z) (db : DB)
  : LearningPath.t * DB :=
  let row := LearningPath.mk (next_path_id db) title description subject
               difficulty_level estimated_hours path_metadata created_by
               now [] in
  (row, with_paths (learning_paths db ++ [row]) db).

(** The creator check: [if user_id:] and, inside it, the 404 when the user
    row is missing.  [None] means the check passed or was skipped. *)
Definition creator_error (user_id : option Z) (db : DB) : option string :=
  match user_id with
  | Some uid =>
      if Py.truthy user_id then
        match first (query_user uid db) with
        | None => Some ("创建者用户ID " +:+ Py.str uid +:+ " 不存在")
        | Some user => None
        end
      else None
  | None => None
  end.

(** [path_data['title']] is read first (for the log line), so a missing
    title is a [KeyError] before anything else; it and the later
    [KeyError] for [subject] reach [except Exception], which rolls back and
    answers 500 with [str(e)], the quoted key, in the detail. *)
Definition create_learning_path (now : timestamp) (path_data : PathData.t)
    (db : DB) : outcome PathOut.t * DB :=
  match PathData.title path_data with
  | None => (HTTPException 500 "创建学习路径失败: 'title'", db)
  | Some title =>
      let user_id := PathData.created_by path_data in
      match creator_error user_id db with
      | Some detail => (HTTPException 404 detail, db)
      | None =>
          let path_metadata :=
            mkPathMetadata
              (default [] (PathData.goals path_data))
              (default [] (PathData.prerequisites path_data))
              (default "beginner" (PathData.difficulty path_data)) in
          match PathData.subject path_data with
          | None => (HTTPException 500 "创建学习路径失败: 'subject'", db)
          | Some subject =>
              let '(db_path, db') :=
                add_path now title
                  (default "" (PathData.description path_data))
                  subject
                  (default 2 (PathData.difficulty_level path_data))
                  (PathData.estimated_hours path_data)
                  path_metadata user_id db in
              (Ok (path_out db_path), db')
          end
      end
  end.

(** ** One enrollment per user and path *)

Definition enrollment_key (e : PathEnrollment.t) : Z * Z :=
  (PathEnrollment.user_id e, PathEnrollment.path_id e).

(** Primary keys are distinct and no (user, path) pair is enrolled twice. *)
Definition enrollments_unique (db : DB) : Prop :=
  NoDup (PathEnrollment.id <$> path_enrollments db)
  ∧ NoDup (enrollment_key <$> path_enrollments db).

(** [user_id] has no enrollment on the path [p]. *)
Definition not_enrolled (user_id : Z) (db : DB) (p : LearningPath.t) : Prop :=
  Forall (λ e, PathEnrollment.path_id e ≠ LearningPath.id p)
    (query_enrollments_of user_id db).

(** The snapshot of an enrollment that [get_learning_path] reports. *)
Definition user_progress_of (e : PathEnrollment.t) : UserProgress.t :=
  UserProgress.mk (PathEnrollment.progress e)
    (Py.or_empty (PathEnrollment.content_progress e))
    (PathEnrollment.enrolled_at e).

(** The enrollment as [record_content_progress] hands it to the commit: the
    dict with the new entry and the aggregate after the guarded
    recomputation. *)
Definition content_write (path_id cid : Z) (progress : Q)
    (enrollment : PathEnrollment.t) : PathEnrollment.t :=
  let content_progress :=
    <[Py.KStr (Py.str cid) := progress]>
      (Py.or_empty (PathEnrollment.content_progress enrollment)) in
  let enrollment :=
    PathEnrollment.set_content_progress content_progress enrollment in
  if Py.contains (Py.KInt path_id) content_progress then
    PathEnrollment.set_progress
      (Py.min 100
         (Py.sum_values content_progress
          / inject_Z (Py.len content_progress))%Q)
      enrollment
  else enrollment.

(** * Properties *)

(** ** Loops that append to a result list *)

Section Loops.
Context {A B : Type}.

Lemma foldl_append_map (f : A → B) (l : list A) (acc : list B) :
  foldl (λ acc x, acc ++ [f x]) acc l = acc ++ (f <$> l).
Proof.
  revert acc. induction l as [|x l IH]; intros acc; simpl.
  - by rewrite app_nil_r.
  - rewrite IH. by rewrite <- app_assoc.
Qed.

Lemma foldl_append_omap {C : Type} (g : A → option C) (h : C → A → B)
    (l : list A) (acc : list B) :
  foldl (λ acc x, match g x with Some y => acc ++ [h y x] | None => acc end)
    acc l
  = acc ++ omap (λ x, (λ y, h y x) <$> g x) l.
Proof.
  revert acc. induction l as [|x l IH]; intros acc; simpl.
  - by rewrite app_nil_r.
  - rewrite IH. destruct (g x); [by rewrite <- app_assoc | done].
Qed.
End Loops.

(** ** Queries *)

Section Queries.
Context {A : Type} (P : A → Prop) `{!∀ x, Decision (P x)}.

Lemma first_filter_Some (l : list A) (x : A) :
  first (filter P l) = Some x → x ∈ l ∧ P x.
Proof.
  unfold first. intros Hx.
  apply head_Some_elem_of, list_elem_of_filter in Hx. tauto.
Qed.

Lemma first_filter_None (l : list A) (x : A) :
  first (filter P l) = None → x ∈ l → ¬ P x.
Proof.
  unfold first. intros Hn Hx HP. apply head_None in Hn.
  assert (x ∈ filter P l) as Hin by by apply list_elem_of_filter.
  rewrite Hn in Hin. by apply elem_of_nil in Hin.
Qed.

(** A row appended to a table that had no match becomes the first match. *)
Lemma first_filter_app_None (l : list A) (x : A) :
  first (filter P l) = None → P x → first (filter P (l ++ [x])) = Some x.
Proof.
  unfold first. intros Hn Hx. rewrite filter_app.
  destruct (filter P l); [|done]. simpl. by rewrite filter_cons_True.
Qed.

(** Writing [row] over every row selected by [K], where the first match of
    [P] is selected and [row] itself matches [P], makes [row] the first
    match. *)
Lemma first_filter_update (K : A → Prop) `{!∀ x, Decision (K x)}
    (row : A) (l : list A) :
  is_Some (first (filter P l)) →
  (∀ r, first (filter P l) = Some r → K r) → P row →
  first (filter P ((λ r, if decide (K r) then row else r) <$> l)) = Some row.
Proof.
  unfold first. induction l as [|r l IH]; simpl; intros Hs HK Hrow.
  - by destruct Hs.
  - destruct (decide (P r)) as [HP|HP].
    + rewrite filter_cons_True in HK by done.
      rewrite decide_True by (by apply HK).
      by rewrite filter_cons_True.
    + rewrite filter_cons_False in Hs, HK by done.
      destruct (decide (K r)).
      * by rewrite filter_cons_True.
      * rewrite filter_cons_False by done. by apply IH.
Qed.
End Queries.

Lemma query_enrollment_add now uid pid q d s db :
  first (query_enrollment uid pid db) = None →
  first (query_enrollment uid pid (add_enrollment now uid pid q d s db).2)
  = Some (add_enrollment now uid pid q d s db).1.
Proof.
  intros Hn. unfold query_enrollment, add_enrollment; simpl.
  by apply first_filter_app_None.
Qed.

Lemma next_enrollment_id_fresh db :
  next_enrollment_id db ∉ (PathEnrollment.id <$> path_enrollments db).
Proof.
  unfold next_enrollment_id.
  assert (∀ l x, x ∈ l → x ≤ foldr Z.max 0 l) as Hmax.
  { induction l as [|y l IH]; intros x Hx; [by apply elem_of_nil in Hx|].
    apply elem_of_cons in Hx as [->|Hx]; simpl; [lia|].
    specialize (IH _ Hx). lia. }
  intros Hin. apply Hmax in Hin. lia.
Qed.

Lemma query_enrollment_commit now user_id path_id e e' db :
  first (query_enrollment user_id path_id db) = Some e →
  PathEnrollment.id e' = PathEnrollment.id e →
  PathEnrollment.user_id e' = PathEnrollment.user_id e →
  PathEnrollment.path_id e' = PathEnrollment.path_id e →
  first (query_enrollment user_id path_id (commit_enrollment now e' db).2)
  = Some (commit_enrollment now e' db).1.
Proof.
  intros He Hid Hu Hp. unfold commit_enrollment; simpl.
  destruct (first_filter_Some _ _ _ He) as [_ [Heu Hep]].
  unfold query_enrollment in *; simpl.
  apply (first_filter_update _
           (λ r, PathEnrollment.id r = PathEnrollment.id e')).
  - by rewrite He.
  - intros r Hr. congruence.
  - simpl. split; congruence.
Qed.

Lemma query_content_positive cid content db :
  content_ids_positive db →
  first (query_content cid db) = Some content → 0 < cid.
Proof.
  unfold content_ids_positive. intros Hpos Hc.
  apply first_filter_Some in Hc as [Hin <-].
  by eapply Forall_forall in Hpos.
Qed.

(** ** The per-content write *)

Lemma contains_int_str_keys n d :
  str_keys d → Py.contains (Py.KInt n) d = false.
Proof.
  intros Hd. unfold Py.contains. apply bool_decide_eq_false.
  intros [v Hv]. by destruct (Hd _ _ Hv).
Qed.

Lemma str_keys_insert s q d : str_keys d → str_keys (<[Py.KStr s := q]> d).
Proof. intros Hd. apply map_Forall_insert_2; [by eexists|done]. Qed.

Lemma str_keys_empty : str_keys ∅.
Proof. apply map_Forall_empty. Qed.

(** What [record_content_progress] commits: the enrollment's identity is
    kept and its dict has the new entry. *)
Lemma record_content_progress_row now path_id cid q e db :
  ∃ e',
    record_content_progress now path_id cid q e db
    = commit_enrollment now e' db
    ∧ PathEnrollment.id e' = PathEnrollment.id e
    ∧ PathEnrollment.user_id e' = PathEnrollment.user_id e
    ∧ PathEnrollment.path_id e' = PathEnrollment.path_id e
    ∧ PathEnrollment.content_progress e'
      = Some (<[Py.KStr (Py.str cid) := q]>
                (Py.or_empty (PathEnrollment.content_progress e))).
Proof.
  unfold record_content_progress. eexists. split; [done|].
  by destruct (Py.contains _ _).
Qed.

(** On a dict with [str] keys the membership test of the integer [path_id]
    fails, so the aggregate is left as it was. *)
Lemma record_content_progress_progress now path_id cid q e db :
  str_keys (Py.or_empty (PathEnrollment.content_progress e)) →
  PathEnrollment.progress (record_content_progress now path_id cid q e db).1
  = PathEnrollment.progress e.
Proof.
  intros Hd. unfold record_content_progress.
  by rewrite contains_int_str_keys by by apply str_keys_insert.
Qed.

(** ** The JSON-key invariant is kept by every write *)

Lemma enroll_json_keys now data db :
  json_keys db → json_keys (enroll_in_learning_path now data db).2.
Proof.
  intros Hdb. unfold enroll_in_learning_path.
  destruct (first (query_user _ _)); [|done].
  destruct (first (query_path _ _)); [|done].
  destruct (first (query_enrollment _ _ _)); [done|]. simpl.
  apply Forall_app. split; [done|].
  apply Forall_singleton. simpl. apply str_keys_empty.
Qed.

Lemma update_json_keys now path_id data user_id db :
  json_keys db → json_keys (update_path_progress now path_id data user_id db).2.
Proof.
  intros Hdb. unfold update_path_progress.
  destruct (first (query_enrollment _ _ _)) as [e|] eqn:He; [|done].
  destruct (ProgressData.content_id data) as [cid|]; [|done].
  destruct (Py.truthy _); [|done].
  destruct (first (query_content _ _)); [|done].
  destruct (record_content_progress_row now path_id cid
              (default 0%Q (ProgressData.progress data)) e db)
    as (e' & -> & _ & _ & _ & Hcp).
  simpl. apply Forall_fmap. eapply Forall_impl; [exact Hdb|].
  intros r Hr. simpl. destruct (decide _); [|done]. simpl.
  rewrite Hcp. simpl. apply str_keys_insert.
  apply first_filter_Some in He as [Hin _].
  unfold json_keys in Hdb. by eapply Forall_forall in Hdb.
Qed.

(** On a store whose dicts have [str] keys, a progress update answers with
    the aggregate the enrollment already had. *)
Lemma update_progress_keeps_aggregate now path_id data user_id db e out :
  json_keys db →
  first (query_enrollment user_id path_id db) = Some e →
  (update_path_progress now path_id data user_id db).1 = Ok out →
  ProgressOut.progress out = PathEnrollment.progress e.
Proof.
  intros Hdb He. unfold update_path_progress. rewrite He.
  assert (str_keys (Py.or_empty (PathEnrollment.content_progress e))) as Hk.
  { apply first_filter_Some in He as [Hin _].
    unfold json_keys in Hdb. by eapply Forall_forall in Hdb. }
  destruct (ProgressData.content_id data) as [cid|];
    [|by intros [= <-]].
  destruct (Py.truthy _); [|by intros [= <-]].
  destruct (first (query_content _ _)); [|done].
  pose proof (record_content_progress_progress now path_id cid
                (default 0%Q (ProgressData.progress data)) e db Hk) as Hp.
  destruct (record_content_progress _ _ _ _ _ _) as [e' db'].
  simpl in *. by intros [= <-].
Qed.

(** ** Runs on the sample store *)

Example demo_db_json_keys : json_keys demo_db.
Proof. repeat constructor; apply str_keys_empty. Qed.

Example recommended_demo_user_1 :
  get_recommended_learning_paths 1 demo_db
  = Ok (recommended_path
          <$> [ demo_path 2 [demo_content 103]; demo_path 4 [];
                demo_path 5 []; demo_path 6 []; demo_path 7 [] ]).
Proof. reflexivity. Qed.

Example recommended_demo_user_2 :
  get_recommended_learning_paths 2 demo_db
  = Ok (recommended_path
          <$> [ demo_path 1 [demo_content 101; demo_content 102];
                demo_path 2 [demo_content 103]; demo_path 3 [];
                demo_path 4 []; demo_path 5 [] ]).
Proof. reflexivity. Qed.

Example enrolled_demo_user_1 :
  get_enrolled_learning_paths 1 demo_db
  = Ok [ EnrolledPath.mk 1 "path 1" "" "programming" 2 (Some 25)
           "2025-03-01T09:00:00" 2 0%Q;
         EnrolledPath.mk 3 "path 3" "" "programming" 2 (Some 25)
           "2025-03-01T09:00:00" 0 0%Q ].
Proof. reflexivity. Qed.

Example enroll_demo_new :
  (enroll_in_learning_path "2025-03-05T09:00:00"
     (EnrollmentData.mk 2 4 None) demo_db).1
  = Ok (EnrollmentOut.mk 4 2 4 0%Q "2025-03-05T09:00:00" ∅).
Proof. reflexivity. Qed.

Example get_path_demo_stored :
  PathDetail.user_progress <$> body (get_learning_path 1 (Some 1) demo_db)
  = Some (Some (UserProgress.mk 0%Q ∅ "2025-03-02T09:00:00")).
Proof. reflexivity. Qed.

(** ** Progress updates *)

(** Claim C1, evaluated on the sample store.  The claim: after
    [content_progress[content_id] = progress] the stored aggregate equals
    min(100, mean of the values in [content_progress]).  Here user 1 on
    path 1 reports 40 for content 101 and then 60 for content 102.  The dict
    becomes {101: 40, 102: 60} under [str] keys, whose clamped mean is 50,
    yet the response and the stored row still carry the aggregate 0: the
    recomputation sits behind [path_id in content_progress], which looks an
    [int] up among [str] keys and never succeeds. *)
Example update_progress_aggregate_stale :
  let db1 :=
    (update_path_progress "2025-03-03T09:00:00" 1
       (ProgressData.mk (Some 101) (Some 40%Q)) 1 demo_db).2 in
  let result :=
    update_path_progress "2025-03-04T09:00:00" 1
      (ProgressData.mk (Some 102) (Some 60%Q)) 1 db1 in
  let d : gmap Py.key Q :=
    <[Py.KStr "102" := 60%Q]> (<[Py.KStr "101" := 40%Q]> ∅) in
  let mean := (Py.sum_values d / inject_Z (Py.len d))%Q in
  ∃ out stored,
    result.1 = Ok out
    ∧ first (query_enrollment 1 1 result.2) = Some stored
    ∧ PathEnrollment.content_progress stored = Some d
    ∧ ProgressOut.content_progress out = d
    ∧ (Py.min 100 mean == 50)%Q
    ∧ PathEnrollment.progress stored = 0%Q
    ∧ ProgressOut.progress out = 0%Q
    ∧ ¬ (PathEnrollment.progress stored == Py.min 100 mean)%Q.
Proof.
  do 2 eexists.
  split_and!; [vm_compute; reflexivity | vm_compute; reflexivity | ..];
    vm_compute; congruence.
Qed.

(** Claim C3, as amended.  [update_path_progress] answers 404 when no
    enrollment exists for (user_id, path_id); and when the enrollment exists
    and the supplied content id is nonzero and matches no content row, it
    answers 404 and leaves the store, hence the enrollment's progress and
    content_progress, as it was. *)
Theorem update_progress_not_found now path_id data user_id db :
  (first (query_enrollment user_id path_id db) = None →
     ∃ detail,
       update_path_progress now path_id data user_id db
       = (HTTPException 404 detail, db))
  ∧ (∀ enrollment cid,
       first (query_enrollment user_id path_id db) = Some enrollment →
       ProgressData.content_id data = Some cid →
       cid ≠ 0 →
       first (query_content cid db) = None →
       ∃ detail,
         update_path_progress now path_id data user_id db
         = (HTTPException 404 detail, db)).
Proof.
  split.
  - intros He. unfold update_path_progress. rewrite He. by eexists.
  - intros enrollment cid He Hcid Hnz Hc. unfold update_path_progress.
    rewrite He, Hcid. cbn [Py.truthy].
    destruct (Z.eqb_spec cid 0) as [->|_]; [done|]. cbn [negb].
    rewrite Hc. by eexists.
Qed.

Lemma update_progress_not_found_witness :
  (∃ detail,
     update_path_progress "2025-03-03T09:00:00" 1
       (ProgressData.mk (Some 101) (Some 40%Q)) 2 demo_db
     = (HTTPException 404 detail, demo_db))
  ∧ (∃ detail,
       update_path_progress "2025-03-03T09:00:00" 1
         (ProgressData.mk (Some 999) (Some 40%Q)) 1 demo_db
       = (HTTPException 404 detail, demo_db)).
Proof.
  split.
  - apply (proj1 (update_progress_not_found _ _ _ _ _)). reflexivity.
  - apply (proj2 (update_progress_not_found _ _ _ _ _)
             (demo_enrollment 1 1 (Some ∅)) 999);
      [reflexivity | reflexivity | lia | reflexivity].
Defined.

(** Claim C3 as stated fails for content id 0: the enrollment of user 1 on
    path 1 exists, no content row has id 0, and the request still succeeds. *)
Lemma update_progress_missing_content_zero :
  first (query_enrollment 1 1 demo_db) = Some (demo_enrollment 1 1 (Some ∅))
  ∧ first (query_content 0 demo_db) = None
  ∧ ¬ NotFound
        (update_path_progress "2025-03-03T09:00:00" 1
           (ProgressData.mk (Some 0) (Some 40%Q)) 1 demo_db).1.
Proof. split_and!; [done|done|]. by intros [detail Hd]. Qed.

(** Claim C7.  For every enrollment and every existing content id, a
    progress update with that content id succeeds and the enrollment, as
    stored and as returned, has [last_activity_at] set to the time of the
    update.  The write of the field is [commit_enrollment]'s; content rows
    carry storage-assigned, positive ids. *)
Theorem update_progress_touches_last_activity now path_id user_id cid progress
    db enrollment content :
  content_ids_positive db →
  first (query_enrollment user_id path_id db) = Some enrollment →
  first (query_content cid db) = Some content →
  ∃ updated db',
    update_path_progress now path_id (ProgressData.mk (Some cid) progress)
      user_id db
    = (Ok (progress_out updated), db')
    ∧ first (query_enrollment user_id path_id db') = Some updated
    ∧ PathEnrollment.last_activity_at updated = Some now.
Proof.
  intros Hpos He Hc.
  pose proof (query_content_positive _ _ _ Hpos Hc) as Hcid.
  unfold update_path_progress. rewrite He.
  cbn [ProgressData.content_id ProgressData.progress Py.truthy].
  destruct (Z.eqb_spec cid 0) as [->|_]; [lia|]. cbn [negb]. rewrite Hc.
  destruct (record_content_progress_row now path_id cid
              (default 0%Q progress) enrollment db)
    as (e' & -> & Hid & Hu & Hp & _).
  pose proof (query_enrollment_commit now _ _ _ _ _ He Hid Hu Hp) as Hq.
  destruct (commit_enrollment now e' db) as [row db'] eqn:Hrow.
  exists row, db'. split_and!; [done|done|].
  unfold commit_enrollment in Hrow. by injection Hrow as <- _.
Qed.

Lemma update_progress_touches_last_activity_witness :
  ∃ updated db',
    update_path_progress "2025-03-03T09:00:00" 1
      (ProgressData.mk (Some 101) (Some 40%Q)) 1 demo_db
    = (Ok (progress_out updated), db')
    ∧ first (query_enrollment 1 1 db') = Some updated
    ∧ PathEnrollment.last_activity_at updated = Some "2025-03-03T09:00:00".
Proof.
  apply (update_progress_touches_last_activity _ _ _ _ _ _
           (demo_enrollment 1 1 (Some ∅)) (demo_content 101)).
  - unfold content_ids_positive. simpl. repeat constructor.
  - reflexivity.
  - reflexivity.
Defined.

(** Claim C8.  For every existing enrollment, a progress update without a
    content id leaves the whole store as it was and returns the enrollment's
    current state. *)
Theorem update_progress_without_content now path_id progress user_id db
    enrollment :
  first (query_enrollment user_id path_id db) = Some enrollment →
  update_path_progress now path_id (ProgressData.mk None progress) user_id db
  = (Ok (progress_out enrollment), db).
Proof. intros He. unfold update_path_progress. by rewrite He. Qed.

Lemma update_progress_without_content_witness :
  update_path_progress "2025-03-03T09:00:00" 1
    (ProgressData.mk None (Some 40%Q)) 1 demo_db
  = (Ok (progress_out (demo_enrollment 1 1 (Some ∅))), demo_db).
Proof. apply update_progress_without_content. reflexivity. Defined.

(** Claim C9.  For every existing enrollment, a progress update with
    content id 0 is answered exactly as one without a content id: whatever
    the content table holds, nothing is looked up or written, and the
    enrollment's current state is returned. *)
Theorem update_progress_content_zero now path_id progress user_id db
    enrollment :
  first (query_enrollment user_id path_id db) = Some enrollment →
  update_path_progress now path_id (ProgressData.mk (Some 0) progress)
    user_id db
  = (Ok (progress_out enrollment), db)
  ∧ update_path_progress now path_id (ProgressData.mk (Some 0) progress)
      user_id db
    = update_path_progress now path_id (ProgressData.mk None progress)
        user_id db.
Proof. intros He. unfold update_path_progress. by rewrite He. Qed.

Lemma update_progress_content_zero_witness :
  update_path_progress "2025-03-03T09:00:00" 1
    (ProgressData.mk (Some 0) (Some 40%Q)) 1 demo_db
  = (Ok (progress_out (demo_enrollment 1 1 (Some ∅))), demo_db).
Proof.
  apply (update_progress_content_zero _ 1 _ 1 demo_db
           (demo_enrollment 1 1 (Some ∅))).
  reflexivity.
Defined.

(** ** Enrollment *)

(** Claim C2.  For a user and a path that both exist: if an enrollment for
    (user_id, path_id) exists, [enroll_in_learning_path] returns it (same
    id, progress and content_progress) and leaves the store as it was;
    otherwise it appends exactly one row, with a fresh id, progress 0, an
    empty content_progress and the supplied personalization settings (the
    empty dict when none are supplied), and returns it.  In both cases a
    second call with the same body returns the same answer and adds
    nothing. *)
Theorem enroll_idempotent now data db user path :
  let uid := EnrollmentData.user_id data in
  let pid := EnrollmentData.path_id data in
  first (query_user uid db) = Some user →
  first (query_path pid db) = Some path →
  (∀ existing,
      first (query_enrollment uid pid db) = Some existing →
      enroll_in_learning_path now data db
      = (Ok (enrollment_out existing), db))
  ∧ (first (query_enrollment uid pid db) = None →
      ∃ created,
        enroll_in_learning_path now data db
        = (Ok (enrollment_out created),
           with_enrollments (path_enrollments db ++ [created]) db)
        ∧ (PathEnrollment.id created
           ∉ (PathEnrollment.id <$> path_enrollments db))
        ∧ PathEnrollment.user_id created = uid
        ∧ PathEnrollment.path_id created = pid
        ∧ PathEnrollment.progress created = 0%Q
        ∧ PathEnrollment.content_progress created = Some ∅
        ∧ PathEnrollment.personalization_settings created
          = default (JDict [])
              (EnrollmentData.personalization_settings data))
  ∧ (∀ now',
      enroll_in_learning_path now' data
        (enroll_in_learning_path now data db).2
      = enroll_in_learning_path now data db).
Proof.
  intros uid pid Hu Hp. split_and!.
  - intros existing He. unfold enroll_in_learning_path.
    fold uid pid. by rewrite Hu, Hp, He.
  - intros He. eexists. unfold enroll_in_learning_path.
    fold uid pid. rewrite Hu, Hp, He. simpl.
    split_and!; try done. apply next_enrollment_id_fresh.
  - intros now'. unfold enroll_in_learning_path at 2 3.
    fold uid pid. rewrite Hu, Hp.
    destruct (first (query_enrollment uid pid db)) as [existing|] eqn:He.
    + simpl. unfold enroll_in_learning_path. fold uid pid.
      by rewrite Hu, Hp, He.
    + pose proof (query_enrollment_add now uid pid 0%Q ∅
        (default (JDict []) (EnrollmentData.personalization_settings data))
        db He) as Hadd.
      destruct (add_enrollment now uid pid 0%Q ∅ _ db) as [row db'] eqn:Hrow.
      simpl in *. unfold enroll_in_learning_path. fold uid pid.
      assert (query_user uid db' = query_user uid db) as ->.
      { unfold add_enrollment in Hrow. by injection Hrow as _ <-. }
      assert (query_path pid db' = query_path pid db) as ->.
      { unfold add_enrollment in Hrow. by injection Hrow as _ <-. }
      by rewrite Hu, Hp, Hadd.
Qed.

Lemma enroll_idempotent_witness :
  enroll_in_learning_path "2025-03-05T09:00:00"
    (EnrollmentData.mk 1 1 None) demo_db
  = (Ok (enrollment_out (demo_enrollment 1 1 (Some ∅))), demo_db)
  ∧ (∃ created,
       enroll_in_learning_path "2025-03-05T09:00:00"
         (EnrollmentData.mk 2 4 None) demo_db
       = (Ok (enrollment_out created),
          with_enrollments (path_enrollments demo_db ++ [created]) demo_db)
       ∧ PathEnrollment.progress created = 0%Q
       ∧ PathEnrollment.content_progress created = Some ∅)
  ∧ enroll_in_learning_path "2025-03-06T09:00:00"
      (EnrollmentData.mk 2 4 None)
      (enroll_in_learning_path "2025-03-05T09:00:00"
         (EnrollmentData.mk 2 4 None) demo_db).2
    = enroll_in_learning_path "2025-03-05T09:00:00"
        (EnrollmentData.mk 2 4 None) demo_db.
Proof.
  split_and!.
  - apply (proj1 (enroll_idempotent "2025-03-05T09:00:00"
                    (EnrollmentData.mk 1 1 None) demo_db (User.mk 1)
                    (demo_path 1 [demo_content 101; demo_content 102])
                    eq_refl eq_refl)).
    reflexivity.
  - destruct (proj1 (proj2 (enroll_idempotent "2025-03-05T09:00:00"
                    (EnrollmentData.mk 2 4 None) demo_db (User.mk 2)
                    (demo_path 4 []) eq_refl eq_refl)) eq_refl)
      as (created & Hrun & _ & _ & _ & Hprogress & Hdict & _).
    exists created. split_and!; assumption.
  - apply (proj2 (proj2 (enroll_idempotent "2025-03-05T09:00:00"
                    (EnrollmentData.mk 2 4 None) demo_db (User.mk 2)
                    (demo_path 4 []) eq_refl eq_refl))).
Defined.

(** ** Path detail *)

(** Claim C4.  For a path id absent from the store, [get_learning_path]
    answers with a mock path and no error.  The mock's id is the requested
    id and it has exactly two content stubs, numbered 101 and 102.  For id 1
    it is the programming mock with its two fixed stubs, for id 2 the
    data_science mock, and for any other id a placeholder whose subject is
    other. *)
Theorem get_path_mock_fallback path_id user_id db :
  first (query_path path_id db) = None →
  ∃ mock,
    get_learning_path path_id user_id db = Ok mock
    ∧ PathDetail.id mock = path_id
    ∧ length (PathDetail.contents mock) = 2%nat
    ∧ ContentOut.id <$> PathDetail.contents mock = [101; 102]
    ∧ (path_id = 1 →
         PathDetail.subject mock = "programming"
         ∧ PathDetail.title mock = "Python编程基础"
         ∧ PathDetail.contents mock
           = [ ContentOut.mk 101 "Python基础语法"
                 "学习Python的基本语法和数据类型" "video" "programming" 1;
               ContentOut.mk 102 "Python函数和模块"
                 "学习如何定义和使用Python函数和模块" "interactive"
                 "programming" 2 ])
    ∧ (path_id = 2 →
         PathDetail.subject mock = "data_science"
         ∧ PathDetail.title mock = "数据分析入门")
    ∧ (path_id ≠ 1 → path_id ≠ 2 →
         PathDetail.subject mock = "other"
         ∧ PathDetail.title mock = "测试学习路径 " +:+ Py.str path_id).
Proof.
  intros Hp. unfold get_learning_path. rewrite Hp. eexists.
  split; [done|]. cbn [mock_path PathDetail.id PathDetail.contents
    PathDetail.subject PathDetail.title fmap list_fmap length ContentOut.id].
  split_and!; try done.
  - by intros ->.
  - by intros ->.
  - intros H1 H2. unfold by_path_id.
    destruct (Z.eqb_spec path_id 1); [done|].
    by destruct (Z.eqb_spec path_id 2).
Qed.

Lemma get_path_mock_fallback_witness :
  ∃ mock,
    get_learning_path 999 None demo_db = Ok mock
    ∧ PathDetail.id mock = 999
    ∧ PathDetail.subject mock = "other".
Proof.
  destruct (get_path_mock_fallback 999 None demo_db eq_refl)
    as (mock & Hrun & Hid & _ & _ & _ & _ & Hother).
  exists mock. split_and!; [assumption | assumption |].
  apply Hother; lia.
Defined.

(** Claim C10, as amended.  When [get_learning_path] falls back to the mock
    and a nonzero user_id is supplied, user_progress is the fixed snapshot
    (overall progress 0, empty content_progress, constant enrolled_at)
    whatever the store holds for that user; when user_id is absent or 0,
    user_progress is null. *)
Theorem get_path_mock_user_progress path_id user_id db :
  first (query_path path_id db) = None →
  ∃ mock,
    get_learning_path path_id user_id db = Ok mock
    ∧ (∀ uid, user_id = Some uid → uid ≠ 0 →
         PathDetail.user_progress mock = Some mock_user_progress)
    ∧ (user_id = None ∨ user_id = Some 0 →
         PathDetail.user_progress mock = None).
Proof.
  intros Hp. unfold get_learning_path. rewrite Hp. eexists.
  split; [done|]. cbn [mock_path PathDetail.user_progress]. split.
  - intros uid -> Hnz. simpl. by destruct (Z.eqb_spec uid 0).
  - by intros [-> | ->].
Qed.

Lemma get_path_mock_user_progress_witness :
  ∃ mock,
    get_learning_path 9 (Some 1) demo_db = Ok mock
    ∧ PathDetail.user_progress mock = Some mock_user_progress.
Proof.
  destruct (get_path_mock_user_progress 9 (Some 1) demo_db eq_refl)
    as (mock & Hrun & Hsome & _).
  exists mock. split; [assumption|].
  apply (Hsome 1); [reflexivity | lia].
Defined.

(** Claim C10 as stated fails for user_id 0: path 999 is absent, a user_id
    is supplied, and user_progress is null instead of the snapshot. *)
Lemma get_path_mock_user_zero :
  first (query_path 999 demo_db) = None
  ∧ ∃ mock,
      get_learning_path 999 (Some 0) demo_db = Ok mock
      ∧ PathDetail.user_progress mock = None
      ∧ PathDetail.user_progress mock ≠ Some mock_user_progress.
Proof. split; [done|]. eexists. by split_and!. Qed.

(** ** Listings *)

(** Claim C5.  [get_recommended_learning_paths] answers 404 when the user
    does not exist; for an existing user it returns at most 5 paths, none of
    which is the path of an enrollment of that user. *)
Theorem recommended_excludes_enrolled user_id db :
  (first (query_user user_id db) = None →
     NotFound (get_recommended_learning_paths user_id db))
  ∧ (∀ user,
       first (query_user user_id db) = Some user →
       ∃ recommended,
         get_recommended_learning_paths user_id db = Ok recommended
         ∧ (length recommended ≤ 5)%nat
         ∧ ∀ r enrollment,
             r ∈ recommended →
             enrollment ∈ path_enrollments db →
             PathEnrollment.user_id enrollment = user_id →
             RecommendedPath.id r ≠ PathEnrollment.path_id enrollment).
Proof.
  split.
  - intros Hu. unfold get_recommended_learning_paths. rewrite Hu.
    by eexists.
  - intros user Hu. unfold get_recommended_learning_paths. rewrite Hu.
    eexists. split; [done|]. rewrite foldl_append_map. cbn [app].
    split.
    + rewrite length_fmap. unfold limit. rewrite length_take. lia.
    + intros r e Hr He Hue Hid.
      apply list_elem_of_fmap in Hr as (p & -> & Hp).
      unfold limit in Hp. apply subseteq_take in Hp.
      assert (PathEnrollment.path_id e
              ∈ PathEnrollment.path_id <$> query_enrollments_of user_id db)
        as Hin.
      { apply list_elem_of_fmap. exists e. split; [done|].
        unfold query_enrollments_of. by apply list_elem_of_filter. }
      destruct (PathEnrollment.path_id <$> query_enrollments_of user_id db)
        as [|x l] eqn:Hids; [by apply elem_of_nil in Hin|].
      apply list_elem_of_filter in Hp as [Hnotin _].
      apply Hnotin. simpl in Hid. by rewrite Hid.
Qed.

Lemma recommended_excludes_enrolled_witness :
  NotFound (get_recommended_learning_paths 5 demo_db)
  ∧ ∃ recommended,
      get_recommended_learning_paths 1 demo_db = Ok recommended
      ∧ (length recommended ≤ 5)%nat.
Proof.
  split.
  - apply (proj1 (recommended_excludes_enrolled 5 demo_db)). reflexivity.
  - destruct (proj2 (recommended_excludes_enrolled 1 demo_db)
                (User.mk 1) eq_refl)
      as (recommended & Hrun & Hlen & _).
    exists recommended. split; assumption.
Defined.

(** Claim C6.  [get_enrolled_learning_paths] never fails: it returns, in
    order, one entry per enrollment of the user whose path still exists,
    built from that path, with the number of the path's contents and the
    enrollment's aggregate progress; enrollments whose path is gone
    contribute nothing, and a user without enrollments gets the empty
    list. *)
Theorem enrolled_lists_existing_paths user_id db :
  ∃ paths,
    get_enrolled_learning_paths user_id db = Ok paths
    ∧ Forall2
        (λ enrollment entry,
           ∃ path,
             first (query_path (PathEnrollment.path_id enrollment) db)
             = Some path
             ∧ entry = enrolled_path path enrollment
             ∧ EnrolledPath.content_count entry
               = length (LearningPath.contents path)
             ∧ EnrolledPath.progress entry
               = PathEnrollment.progress enrollment)
        (filter
           (λ enrollment,
              is_Some
                (first (query_path (PathEnrollment.path_id enrollment) db)))
           (query_enrollments_of user_id db))
        paths
    ∧ (query_enrollments_of user_id db = [] → paths = []).
Proof.
  exists (omap
            (λ e, (λ p, enrolled_path p e)
                    <$> first (query_path (PathEnrollment.path_id e) db))
            (query_enrollments_of user_id db)).
  split_and!.
  - unfold get_enrolled_learning_paths.
    destruct (query_enrollments_of user_id db) as [|e l] eqn:Hq; [done|].
    by rewrite foldl_append_omap.
  - induction (query_enrollments_of user_id db) as [|e l IH]; simpl.
    + constructor.
    + destruct (first (query_path (PathEnrollment.path_id e) db))
        as [p|] eqn:Hp; simpl.
      * rewrite filter_cons_True by (by rewrite Hp).
        constructor; [|done]. by exists p.
      * rewrite filter_cons_False by (rewrite Hp; by intros []). done.
  - by intros ->.
Qed.

Lemma enrolled_lists_existing_paths_witness :
  get_enrolled_learning_paths 2 demo_db = Ok [].
Proof.
  destruct (enrolled_lists_existing_paths 2 demo_db)
    as (paths & Hrun & _ & Hempty).
  rewrite Hrun. f_equal. apply Hempty. reflexivity.
Defined.

(** * Further properties of the handlers *)

(** ** Shared facts *)

Lemma NoDup_fmap_eq {A B : Type} (f : A → B) (l : list A) (x y : A) :
  NoDup (f <$> l) → x ∈ l → y ∈ l → f x = f y → x = y.
Proof.
  induction l as [|z l IH]; intros Hnd Hx Hy Hf.
  - by apply elem_of_nil in Hx.
  - rewrite fmap_cons in Hnd. apply NoDup_cons in Hnd as [Hz Hnd].
    apply elem_of_cons in Hx as [->|Hx], Hy as [->|Hy]; [done| | |by apply IH].
    + destruct Hz. rewrite Hf. by apply list_elem_of_fmap_2.
    + destruct Hz. rewrite <- Hf. by apply list_elem_of_fmap_2.
Qed.

Lemma next_path_id_fresh db :
  next_path_id db ∉ (LearningPath.id <$> learning_paths db).
Proof.
  unfold next_path_id.
  assert (∀ l x, x ∈ l → x ≤ foldr Z.max 0 l) as Hmax.
  { induction l as [|y l IH]; intros x Hx; [by apply elem_of_nil in Hx|].
    apply elem_of_cons in Hx as [->|Hx]; simpl; [lia|].
    specialize (IH _ Hx). lia. }
  intros Hin. apply Hmax in Hin. lia.
Qed.

Lemma contains_int_insert_str n s q d :
  Py.contains (Py.KInt n) (<[Py.KStr s := q]> d) = Py.contains (Py.KInt n) d.
Proof. unfold Py.contains. by rewrite lookup_insert_ne. Qed.

(** A progress update that names an existing, nonzero content id runs the
    per-content write on the enrollment found. *)
Lemma update_path_progress_write now path_id user_id cid progress db e c :
  first (query_enrollment user_id path_id db) = Some e →
  first (query_content cid db) = Some c →
  cid ≠ 0 →
  update_path_progress now path_id (ProgressData.mk (Some cid) progress)
    user_id db
  = (Ok (progress_out
           (record_content_progress now path_id cid (default 0%Q progress)
              e db).1),
     (record_content_progress now path_id cid (default 0%Q progress)
        e db).2).
Proof.
  intros He Hc Hnz. unfold update_path_progress. rewrite He.
  cbn [ProgressData.content_id ProgressData.progress Py.truthy].
  destruct (Z.eqb_spec cid 0) as [->|_]; [done|]. cbn [negb]. rewrite Hc.
  by destruct (record_content_progress _ _ _ _ _ _).
Qed.

(** The tables a progress update does not write. *)
Lemma update_path_progress_tables now path_id data user_id db :
  let db' := (update_path_progress now path_id data user_id db).2 in
  users db' = users db
  ∧ learning_paths db' = learning_paths db
  ∧ learning_contents db' = learning_contents db.
Proof.
  unfold update_path_progress.
  destruct (first (query_enrollment _ _ _)) as [e|]; [|done].
  destruct (ProgressData.content_id data) as [cid|]; [|done].
  destruct (Py.truthy _); [|done].
  destruct (first (query_content _ _)); [|done].
  by destruct (record_content_progress_row now path_id cid
                 (default 0%Q (ProgressData.progress data)) e db)
       as (e' & -> & _).
Qed.

(** ** Progress updates, continued *)

(** The row that the per-content write commits. *)
Lemma record_content_progress_fields now path_id cid q e db :
  let updated := (record_content_progress now path_id cid q e db).1 in
  PathEnrollment.content_progress updated
  = Some (<[Py.KStr (Py.str cid) := q]>
            (Py.or_empty (PathEnrollment.content_progress e)))
  ∧ PathEnrollment.id updated = PathEnrollment.id e
  ∧ PathEnrollment.user_id updated = PathEnrollment.user_id e
  ∧ PathEnrollment.path_id updated = PathEnrollment.path_id e
  ∧ PathEnrollment.enrolled_at updated = PathEnrollment.enrolled_at e
  ∧ PathEnrollment.personalization_settings updated
    = PathEnrollment.personalization_settings e
  ∧ PathEnrollment.last_activity_at updated = Some now.
Proof.
  unfold record_content_progress, commit_enrollment. simpl.
  by destruct (Py.contains _ _).
Qed.

Lemma query_enrollment_record now path_id user_id cid q e db :
  first (query_enrollment user_id path_id db) = Some e →
  first (query_enrollment user_id path_id
           (record_content_progress now path_id cid q e db).2)
  = Some (record_content_progress now path_id cid q e db).1.
Proof.
  intros He.
  destruct (record_content_progress_row now path_id cid q e db)
    as (e' & -> & Hid & Hu & Hp & _).
  by eapply query_enrollment_commit.
Qed.

(** X1.  A progress update that names an existing, nonzero content id
    stores the supplied value (0 when none is supplied) under that content's
    key; the entries of all other content ids, and the enrollment's
    identity, are kept. *)
Theorem update_progress_records_content now path_id user_id cid progress db
    enrollment content :
  first (query_enrollment user_id path_id db) = Some enrollment →
  first (query_content cid db) = Some content →
  cid ≠ 0 →
  ∃ updated db',
    update_path_progress now path_id (ProgressData.mk (Some cid) progress)
      user_id db
    = (Ok (progress_out updated), db')
    ∧ first (query_enrollment user_id path_id db') = Some updated
    ∧ Py.or_empty (PathEnrollment.content_progress updated)
        !! Py.KStr (Py.str cid)
      = Some (default 0%Q progress)
    ∧ (∀ other,
         other ≠ cid →
         Py.or_empty (PathEnrollment.content_progress updated)
           !! Py.KStr (Py.str other)
         = Py.or_empty (PathEnrollment.content_progress enrollment)
             !! Py.KStr (Py.str other))
    ∧ PathEnrollment.id updated = PathEnrollment.id enrollment
    ∧ PathEnrollment.enrolled_at updated
      = PathEnrollment.enrolled_at enrollment
    ∧ PathEnrollment.personalization_settings updated
      = PathEnrollment.personalization_settings enrollment.
Proof.
  intros He Hc Hnz.
  rewrite (update_path_progress_write _ _ _ _ _ _ _ _ He Hc Hnz).
  eexists _, _. split; [done|].
  split; [by apply query_enrollment_record|].
  destruct (record_content_progress_fields now path_id cid
              (default 0%Q progress) enrollment db)
    as (Hcp & Hid & _ & _ & Hat & Hset & _).
  rewrite Hcp. cbn [Py.or_empty default from_option id].
  split_and!; [by rewrite lookup_insert_eq | | done | done | done].
  intros other Hne. rewrite lookup_insert_ne; [done|].
  unfold Py.str. intros [= Heq]. apply Hne. symmetry.
  by apply (inj pretty).
Qed.

Lemma update_progress_records_content_witness :
  ∃ updated db',
    update_path_progress "2025-03-03T09:00:00" 1
      (ProgressData.mk (Some 101) (Some 40%Q)) 1 demo_db
    = (Ok (progress_out updated), db')
    ∧ Py.or_empty (PathEnrollment.content_progress updated)
        !! Py.KStr (Py.str 101)
      = Some 40%Q.
Proof.
  destruct (update_progress_records_content "2025-03-03T09:00:00" 1 1 101
              (Some 40%Q) demo_db (demo_enrollment 1 1 (Some ∅))
              (demo_content 101))
    as (updated & db' & Hrun & _ & Hentry & _);
    [reflexivity | reflexivity | lia |].
  exists updated, db'. split; assumption.
Defined.

Lemma record_content_progress_eq now path_id cid q e db :
  record_content_progress now path_id cid q e db
  = commit_enrollment now (content_write path_id cid q e) db.
Proof. reflexivity. Qed.

Lemma commit_enrollment_again now1 now2 e1 e2 db :
  PathEnrollment.id e2 = PathEnrollment.id e1 →
  commit_enrollment now2 e2 (commit_enrollment now1 e1 db).2
  = commit_enrollment now2 e2 db.
Proof.
  intros Hid. unfold commit_enrollment, with_enrollments. simpl.
  do 2 f_equal. induction (path_enrollments db) as [|r rows IH]; [done|].
  rewrite !fmap_cons, IH. f_equal.
  destruct (decide (PathEnrollment.id r = PathEnrollment.id e1)) as [Hr|Hr].
  - rewrite (decide_True _ _ (eq_trans Hr (eq_sym Hid))).
    rewrite decide_True; [done|]. by rewrite Hid.
  - by rewrite Hid, (decide_False _ _ Hr).
Qed.

Lemma commit_enrollment_ext now e1 e2 db :
  PathEnrollment.set_last_activity_at now e1
  = PathEnrollment.set_last_activity_at now e2 →
  commit_enrollment now e1 db = commit_enrollment now e2 db.
Proof.
  intros Heq. unfold commit_enrollment. rewrite Heq.
  assert (PathEnrollment.id e1 = PathEnrollment.id e2) as ->; [|done].
  by apply (f_equal PathEnrollment.id) in Heq.
Qed.

Lemma content_write_again now1 now2 path_id cid q1 q2 e :
  PathEnrollment.set_last_activity_at now2
    (content_write path_id cid q2
       (PathEnrollment.set_last_activity_at now1
          (content_write path_id cid q1 e)))
  = PathEnrollment.set_last_activity_at now2 (content_write path_id cid q2 e).
Proof.
  unfold content_write.
  destruct (Py.contains (Py.KInt path_id)
              (Py.or_empty (PathEnrollment.content_progress e))) eqn:Hg;
    rewrite !contains_int_insert_str, !Hg; simpl;
    rewrite ?contains_int_insert_str, ?Hg, ?insert_insert_eq; simpl;
    unfold PathEnrollment.set_last_activity_at, PathEnrollment.set_progress,
      PathEnrollment.set_content_progress; simpl;
    reflexivity.
Qed.

Lemma content_write_id path_id cid q e :
  PathEnrollment.id (content_write path_id cid q e) = PathEnrollment.id e.
Proof. unfold content_write. by destruct (Py.contains _ _). Qed.

Lemma record_content_progress_again now1 now2 path_id cid q1 q2 e db :
  record_content_progress now2 path_id cid q2
    (record_content_progress now1 path_id cid q1 e db).1
    (record_content_progress now1 path_id cid q1 e db).2
  = record_content_progress now2 path_id cid q2 e db.
Proof.
  rewrite !record_content_progress_eq.
  rewrite commit_enrollment_again.
  - apply commit_enrollment_ext. apply content_write_again.
  - rewrite !content_write_id. unfold commit_enrollment. simpl.
    by rewrite ?content_write_id.
Qed.

(** X2.  The last write wins: reporting a value for a content and then
    another value for the same content answers and leaves the store exactly
    as reporting the second value alone. *)
Theorem update_progress_last_write_wins now1 now2 path_id user_id cid
    progress1 progress2 db enrollment content :
  first (query_enrollment user_id path_id db) = Some enrollment →
  first (query_content cid db) = Some content →
  cid ≠ 0 →
  update_path_progress now2 path_id (ProgressData.mk (Some cid) progress2)
    user_id
    (update_path_progress now1 path_id
       (ProgressData.mk (Some cid) progress1) user_id db).2
  = update_path_progress now2 path_id (ProgressData.mk (Some cid) progress2)
      user_id db.
Proof.
  intros He Hc Hnz.
  rewrite (update_path_progress_write now1 _ _ _ progress1 _ _ _ He Hc Hnz).
  rewrite (update_path_progress_write now2 _ _ _ progress2 _ _ _ He Hc Hnz).
  cbn [snd].
  pose proof (query_enrollment_record now1 path_id user_id cid
                (default 0%Q progress1) enrollment db He) as He1.
  assert (first (query_content cid
                   (record_content_progress now1 path_id cid
                      (default 0%Q progress1) enrollment db).2)
          = Some content) as Hc1.
  { by rewrite record_content_progress_eq. }
  rewrite (update_path_progress_write now2 _ _ _ progress2 _ _ _
             He1 Hc1 Hnz).
  by rewrite record_content_progress_again.
Qed.

Lemma update_progress_last_write_wins_witness :
  update_path_progress "2025-03-04T09:00:00" 1
    (ProgressData.mk (Some 101) (Some 60%Q)) 1
    (update_path_progress "2025-03-03T09:00:00" 1
       (ProgressData.mk (Some 101) (Some 40%Q)) 1 demo_db).2
  = update_path_progress "2025-03-04T09:00:00" 1
      (ProgressData.mk (Some 101) (Some 60%Q)) 1 demo_db.
Proof.
  apply (update_progress_last_write_wins _ _ _ _ _ _ _ _
           (demo_enrollment 1 1 (Some ∅)) (demo_content 101));
    [reflexivity | reflexivity | lia].
Defined.

Lemma commit_enrollment_ids now e db :
  PathEnrollment.id <$> path_enrollments (commit_enrollment now e db).2
  = PathEnrollment.id <$> path_enrollments db.
Proof.
  unfold commit_enrollment. simpl. rewrite <- list_fmap_compose.
  apply list_fmap_ext. intros i r _. simpl.
  by destruct (decide (PathEnrollment.id r = PathEnrollment.id e)).
Qed.

Lemma filter_fmap_frame {A : Type} (P : A → Prop) `{!∀ x, Decision (P x)}
    (f : A → A) (l : list A) :
  (∀ r, r ∈ l → f r = r ∨ (¬ P r ∧ ¬ P (f r))) →
  filter P (f <$> l) = filter P l.
Proof.
  induction l as [|r l IH]; intros Hf; [done|].
  rewrite fmap_cons, !filter_cons, IH
    by (intros x Hx; apply Hf; by right).
  destruct (Hf r) as [-> | [H1 H2]]; [by left|done|].
  by rewrite !decide_False.
Qed.

(** X3.  Whatever the request, a progress update writes no table but the
    enrollments, and creates or deletes no enrollment; with distinct
    primary keys, the enrollments of every other (user, path) pair are
    exactly as before. *)
Theorem update_progress_frame now path_id data user_id db :
  let db' := (update_path_progress now path_id data user_id db).2 in
  users db' = users db
  ∧ learning_paths db' = learning_paths db
  ∧ learning_contents db' = learning_contents db
  ∧ PathEnrollment.id <$> path_enrollments db'
    = PathEnrollment.id <$> path_enrollments db
  ∧ (NoDup (PathEnrollment.id <$> path_enrollments db) →
     ∀ u p, (u, p) ≠ (user_id, path_id) →
            query_enrollment u p db' = query_enrollment u p db).
Proof.
  intros db'.
  destruct (update_path_progress_tables now path_id data user_id db)
    as (Hu & Hp & Hc).
  split_and!; [done|done|done|..]; subst db'; clear Hu Hp Hc;
    unfold update_path_progress;
    destruct (first (query_enrollment _ _ _)) as [e|] eqn:He; try done;
    destruct (ProgressData.content_id data) as [cid|]; try done;
    destruct (Py.truthy _); try done;
    destruct (first (query_content _ _)); try done;
    destruct (record_content_progress_row now path_id cid
                (default 0%Q (ProgressData.progress data)) e db)
      as (e' & -> & Hid & Huid & Hpid & _).
  - apply commit_enrollment_ids.
  - intros Hnd u p Hne. unfold query_enrollment, commit_enrollment. simpl.
    apply first_filter_Some in He as [Hin [Heu Hep]].
    apply filter_fmap_frame. intros r Hr.
    destruct (decide (PathEnrollment.id r = PathEnrollment.id e'))
      as [H|H]; [|by left].
    right.
    assert (r = e) as ->.
    { eapply NoDup_fmap_eq; [exact Hnd|done|done|congruence]. }
    simpl. split; intros [? ?]; apply Hne; congruence.
Qed.

Lemma update_progress_frame_witness :
  query_enrollment 1 3
    (update_path_progress "2025-03-03T09:00:00" 1
       (ProgressData.mk (Some 101) (Some 40%Q)) 1 demo_db).2
  = query_enrollment 1 3 demo_db.
Proof.
  destruct (update_progress_frame "2025-03-03T09:00:00" 1
              (ProgressData.mk (Some 101) (Some 40%Q)) 1 demo_db)
    as (_ & _ & _ & _ & Hothers).
  apply Hothers.
  - apply (bool_decide_unpack _). vm_compute. exact I.
  - intros Heq. discriminate Heq.
Defined.

(** X4.  On a store whose content_progress dicts have string keys, whatever
    the request, a progress update leaves the enrollment's aggregate
    progress as it was, in the answer and in the store. *)
Theorem update_progress_aggregate_unchanged now path_id data user_id db
    enrollment :
  json_keys db →
  first (query_enrollment user_id path_id db) = Some enrollment →
  ∃ stored,
    first (query_enrollment user_id path_id
             (update_path_progress now path_id data user_id db).2)
    = Some stored
    ∧ PathEnrollment.progress stored = PathEnrollment.progress enrollment
    ∧ (∀ answer,
         (update_path_progress now path_id data user_id db).1 = Ok answer →
         ProgressOut.progress answer = PathEnrollment.progress enrollment).
Proof.
  intros Hdb He.
  assert (str_keys (Py.or_empty (PathEnrollment.content_progress enrollment)))
    as Hk.
  { apply first_filter_Some in He as [Hin _].
    unfold json_keys in Hdb. by eapply Forall_forall in Hdb. }
  unfold update_path_progress. rewrite He.
  destruct (ProgressData.content_id data) as [cid|];
    [|exists enrollment; split_and!; [done|done|by intros ? [= <-]]].
  destruct (Py.truthy _);
    [|exists enrollment; split_and!; [done|done|by intros ? [= <-]]].
  destruct (first (query_content _ _));
    [|by exists enrollment].
  pose proof (record_content_progress_progress now path_id cid
                (default 0%Q (ProgressData.progress data)) enrollment db Hk)
    as Hp.
  pose proof (query_enrollment_record now path_id user_id cid
                (default 0%Q (ProgressData.progress data)) enrollment db He)
    as Hq.
  destruct (record_content_progress _ _ _ _ _ _) as [e' db'].
  simpl in *. exists e'. split_and!; [done|done|by intros ? [= <-]].
Qed.

Lemma update_progress_aggregate_unchanged_witness :
  ∃ stored,
    first (query_enrollment 1 1
             (update_path_progress "2025-03-03T09:00:00" 1
                (ProgressData.mk (Some 101) (Some 40%Q)) 1 demo_db).2)
    = Some stored
    ∧ PathEnrollment.progress stored = 0%Q.
Proof.
  destruct (update_progress_aggregate_unchanged "2025-03-03T09:00:00" 1
              (ProgressData.mk (Some 101) (Some 40%Q)) 1 demo_db
              (demo_enrollment 1 1 (Some ∅)) demo_db_json_keys eq_refl)
    as (stored & Hq & Hp & _).
  exists stored. split; assumption.
Defined.

(** X5.  A progress update never reads the paths table: it checks neither
    that the path exists nor that the content belongs to it, and answers
    and writes the same whatever paths are stored. *)
Theorem update_progress_ignores_paths now path_id data user_id db paths :
  (update_path_progress now path_id data user_id (with_paths paths db)).1
  = (update_path_progress now path_id data user_id db).1
  ∧ path_enrollments
      (update_path_progress now path_id data user_id (with_paths paths db)).2
    = path_enrollments (update_path_progress now path_id data user_id db).2.
Proof.
  unfold update_path_progress.
  change (query_enrollment user_id path_id (with_paths paths db))
    with (query_enrollment user_id path_id db).
  destruct (first (query_enrollment _ _ _)) as [e|]; [|done].
  destruct (ProgressData.content_id data) as [cid|]; [|done].
  destruct (Py.truthy _); [|done].
  change (query_content cid (with_paths paths db))
    with (query_content cid db).
  destruct (first (query_content _ _)); [|done].
  by rewrite !record_content_progress_eq.
Qed.

(** ** Invariants kept by the writing handlers *)

Lemma create_learning_path_tables now data db :
  let db' := (create_learning_path now data db).2 in
  users db' = users db
  ∧ learning_contents db' = learning_contents db
  ∧ path_enrollments db' = path_enrollments db.
Proof.
  unfold create_learning_path.
  destruct (PathData.title data); [|done].
  destruct (creator_error _ _); [done|].
  by destruct (PathData.subject data).
Qed.

Lemma update_progress_frame_ids now path_id data user_id db :
  NoDup (PathEnrollment.id <$> path_enrollments db) →
  let db' := (update_path_progress now path_id data user_id db).2 in
  PathEnrollment.id <$> path_enrollments db'
  = PathEnrollment.id <$> path_enrollments db
  ∧ enrollment_key <$> path_enrollments db'
    = enrollment_key <$> path_enrollments db.
Proof.
  intros Hnd. unfold update_path_progress.
  destruct (first (query_enrollment _ _ _)) as [e|] eqn:He; [|done].
  destruct (ProgressData.content_id data) as [cid|]; [|done].
  destruct (Py.truthy _); [|done].
  destruct (first (query_content _ _)); [|done].
  destruct (record_content_progress_row now path_id cid
              (default 0%Q (ProgressData.progress data)) e db)
    as (e' & -> & Hid & Huid & Hpid & _).
  split; [apply commit_enrollment_ids|].
  unfold commit_enrollment. simpl. rewrite <- list_fmap_compose.
  apply Forall_fmap_ext, Forall_forall. intros r Hr. simpl.
  destruct (decide (PathEnrollment.id r = PathEnrollment.id e'))
    as [H|H]; [|done].
  apply first_filter_Some in He as [Hin _].
  assert (r = e) as ->.
  { eapply NoDup_fmap_eq; [exact Hnd|done|done|congruence]. }
  unfold enrollment_key. simpl. congruence.
Qed.

(** X6.  If primary keys are distinct and no (user, path) pair is enrolled
    twice, the same holds after an enrollment request, after a progress
    update and after a path creation. *)
Theorem writes_keep_enrollments_unique db :
  enrollments_unique db →
  (∀ now data,
     enrollments_unique (enroll_in_learning_path now data db).2)
  ∧ (∀ now path_id data user_id,
       enrollments_unique
         (update_path_progress now path_id data user_id db).2)
  ∧ (∀ now data,
       enrollments_unique (create_learning_path now data db).2).
Proof.
  intros [Hids Hkeys]. split_and!.
  - intros now data. unfold enroll_in_learning_path.
    destruct (first (query_user _ _)); [|done].
    destruct (first (query_path _ _)); [|done].
    destruct (first (query_enrollment _ _ _)) eqn:He; [done|].
    unfold enrollments_unique. simpl. rewrite !fmap_app. simpl.
    split; apply NoDup_app; (split_and!; [done| |apply NoDup_singleton]).
    + intros x Hx Hin. apply list_elem_of_singleton in Hin as ->.
      by apply next_enrollment_id_fresh in Hx.
    + intros x Hx Hin. apply list_elem_of_singleton in Hin as ->.
      apply list_elem_of_fmap in Hx as (r & Hr & Hin).
      eapply first_filter_None in He; [|exact Hin].
      apply He. unfold enrollment_key in Hr. simpl in Hr.
      split; congruence.
  - intros now path_id data user_id.
    destruct (update_progress_frame_ids now path_id data user_id db)
      as [Hi Hk]; [done|].
    unfold enrollments_unique. by rewrite Hi, Hk.
  - intros now data.
    destruct (create_learning_path_tables now data db) as (_ & _ & He).
    unfold enrollments_unique. by rewrite He.
Qed.

Lemma writes_keep_enrollments_unique_witness :
  enrollments_unique
    (enroll_in_learning_path "2025-03-05T09:00:00"
       (EnrollmentData.mk 2 4 None) demo_db).2.
Proof.
  apply (writes_keep_enrollments_unique demo_db).
  split; apply (bool_decide_unpack _); vm_compute; exact I.
Defined.

(** X7.  If every stored content_progress dict has string keys only, the
    same holds after an enrollment request, after a progress update and
    after a path creation. *)
Theorem writes_keep_json_keys db :
  json_keys db →
  (∀ now data, json_keys (enroll_in_learning_path now data db).2)
  ∧ (∀ now path_id data user_id,
       json_keys (update_path_progress now path_id data user_id db).2)
  ∧ (∀ now data, json_keys (create_learning_path now data db).2).
Proof.
  intros Hdb. split_and!.
  - intros. by apply enroll_json_keys.
  - intros. by apply update_json_keys.
  - intros now data.
    destruct (create_learning_path_tables now data db) as (_ & _ & He).
    unfold json_keys. by rewrite He.
Qed.

Lemma writes_keep_json_keys_witness :
  json_keys
    (update_path_progress "2025-03-03T09:00:00" 1
       (ProgressData.mk (Some 101) (Some 40%Q)) 1 demo_db).2.
Proof.
  apply (writes_keep_json_keys demo_db demo_db_json_keys).
Defined.

(** ** Enrollment, continued *)

(** X8.  An enrollment request for a missing user is answered 404 with the
    user's id in the message, whether or not the path exists; for an
    existing user and a missing path it is answered 404 with the path's id.
    In both cases the store is left as it was. *)
Theorem enroll_not_found now data db :
  let uid := EnrollmentData.user_id data in
  let pid := EnrollmentData.path_id data in
  (first (query_user uid db) = None →
     enroll_in_learning_path now data db
     = (HTTPException 404 ("用户ID " +:+ Py.str uid +:+ " 不存在"), db))
  ∧ (∀ user,
       first (query_user uid db) = Some user →
       first (query_path pid db) = None →
       enroll_in_learning_path now data db
       = (HTTPException 404 ("学习路径ID " +:+ Py.str pid +:+ " 不存在"),
          db)).
Proof.
  intros uid pid. unfold enroll_in_learning_path. fold uid pid. split.
  - by intros ->.
  - by intros user -> ->.
Qed.

Lemma enroll_not_found_witness :
  enroll_in_learning_path "2025-03-05T09:00:00"
    (EnrollmentData.mk 5 99 None) demo_db
  = (HTTPException 404 ("用户ID " +:+ Py.str 5 +:+ " 不存在"), demo_db)
  ∧ enroll_in_learning_path "2025-03-05T09:00:00"
      (EnrollmentData.mk 1 99 None) demo_db
    = (HTTPException 404 ("学习路径ID " +:+ Py.str 99 +:+ " 不存在"),
       demo_db).
Proof.
  split.
  - apply (proj1 (enroll_not_found _ (EnrollmentData.mk 5 99 None) demo_db)).
    reflexivity.
  - apply (proj2 (enroll_not_found _ (EnrollmentData.mk 1 99 None) demo_db)
             (User.mk 1)); reflexivity.
Defined.

(** X9.  Whatever the request, enrolling writes no table but the
    enrollments, keeps every stored enrollment row unchanged and in place,
    and adds at most one row. *)
Theorem enroll_keeps_rows now data db :
  let db' := (enroll_in_learning_path now data db).2 in
  users db' = users db
  ∧ learning_paths db' = learning_paths db
  ∧ learning_contents db' = learning_contents db
  ∧ path_enrollments db `prefix_of` path_enrollments db'
  ∧ (length (path_enrollments db') ≤ S (length (path_enrollments db)))%nat.
Proof.
  unfold enroll_in_learning_path.
  destruct (first (query_user _ _));
    [|by split_and!; try done; simpl; lia].
  destruct (first (query_path _ _));
    [|by split_and!; try done; simpl; lia].
  destruct (first (query_enrollment _ _ _));
    [by split_and!; try done; simpl; lia|].
  simpl. split_and!; try done.
  - by apply prefix_app_r.
  - rewrite length_app. simpl. lia.
Qed.

(** ** Path creation *)

(** X10.  Errors of a path creation, in the order the handler meets them:
    a missing title is a 500 whatever else the body holds; with a title, a
    nonzero created_by that matches no user is a 404 even when the subject
    is missing; and with a title and a passing creator check, a missing
    subject is a 500.  In each case the store is left as it was. *)
Theorem create_path_errors now data db :
  (PathData.title data = None →
     create_learning_path now data db
     = (HTTPException 500 "创建学习路径失败: 'title'", db))
  ∧ (∀ title uid,
       PathData.title data = Some title →
       PathData.created_by data = Some uid →
       uid ≠ 0 →
       first (query_user uid db) = None →
       create_learning_path now data db
       = (HTTPException 404
            ("创建者用户ID " +:+ Py.str uid +:+ " 不存在"), db))
  ∧ (∀ title,
       PathData.title data = Some title →
       creator_error (PathData.created_by data) db = None →
       PathData.subject data = None →
       create_learning_path now data db
       = (HTTPException 500 "创建学习路径失败: 'subject'", db)).
Proof.
  unfold create_learning_path. split_and!.
  - by intros ->.
  - intros title uid -> -> Hnz Hu. unfold creator_error, Py.truthy.
    destruct (Z.eqb_spec uid 0); [done|]. simpl. by rewrite Hu.
  - by intros title -> -> ->.
Qed.

Lemma create_path_errors_witness :
  create_learning_path "2025-03-05T09:00:00"
    (PathData.mk None None (Some "math") None None None None None (Some 5))
    demo_db
  = (HTTPException 500 "创建学习路径失败: 'title'", demo_db)
  ∧ create_learning_path "2025-03-05T09:00:00"
      (PathData.mk (Some "Algebra") None None None None None None None
         (Some 5))
      demo_db
    = (HTTPException 404 ("创建者用户ID " +:+ Py.str 5 +:+ " 不存在"),
       demo_db)
  ∧ create_learning_path "2025-03-05T09:00:00"
      (PathData.mk (Some "Algebra") None None None None None None None
         (Some 1))
      demo_db
    = (HTTPException 500 "创建学习路径失败: 'subject'", demo_db).
Proof.
  split_and!.
  - apply (proj1 (create_path_errors _ _ demo_db)). reflexivity.
  - apply (proj1 (proj2 (create_path_errors _ _ demo_db)) "Algebra" 5);
      [reflexivity | reflexivity | lia | reflexivity].
  - apply (proj2 (proj2 (create_path_errors _ _ demo_db)) "Algebra");
      reflexivity.
Defined.

(** The creator check passes exactly when created_by is absent, is 0, or
    names a stored user. *)
Lemma creator_error_None user_id db :
  creator_error user_id db = None
  ↔ user_id = None ∨ user_id = Some 0
    ∨ ∃ uid, user_id = Some uid ∧ is_Some (first (query_user uid db)).
Proof.
  unfold creator_error, Py.truthy. destruct user_id as [uid|].
  - destruct (Z.eqb_spec uid 0) as [->|Hnz]; simpl.
    + naive_solver.
    + destruct (first (query_user uid db)) eqn:Hu.
      * split; [|done]. intros _. right. right. exists uid. by rewrite Hu.
      * split; [done|]. intros [?|[[= ?]|(u & [= <-] & Hs)]]; try done.
        rewrite Hu in Hs. by destruct Hs.
  - naive_solver.
Qed.

Lemma first_filter_None_intro {A : Type} (P : A → Prop)
    `{!∀ x, Decision (P x)} (l : list A) :
  (∀ x, x ∈ l → ¬ P x) → first (filter P l) = None.
Proof.
  intros Hl. unfold first. apply head_None.
  induction l as [|x l IH]; [done|].
  rewrite filter_cons_False by (apply Hl; by left).
  apply IH. intros y Hy. apply Hl. by right.
Qed.

Lemma query_path_add now title description subject level hours meta by_ db :
  first (query_path (next_path_id db)
           (add_path now title description subject level hours meta by_
              db).2)
  = Some (add_path now title description subject level hours meta by_ db).1.
Proof.
  unfold query_path, add_path. simpl.
  apply first_filter_app_None; [|done].
  apply first_filter_None_intro. intros p Hp Hid.
  apply (next_path_id_fresh db). rewrite <- Hid.
  by apply list_elem_of_fmap_2.
Qed.

(** X11.  A path creation with a title, a subject and a passing creator
    check appends exactly one path, with a fresh id, no contents, the
    supplied fields, and the defaults for the absent ones (empty
    description, difficulty level 2, no goals, no prerequisites, difficulty
    beginner); the stored paths keep their place. *)
Theorem create_path_appends now data db title subject :
  PathData.title data = Some title →
  PathData.subject data = Some subject →
  creator_error (PathData.created_by data) db = None →
  ∃ created,
    create_learning_path now data db
    = (Ok (path_out created),
       with_paths (learning_paths db ++ [created]) db)
    ∧ (LearningPath.id created ∉ (LearningPath.id <$> learning_paths db))
    ∧ LearningPath.title created = title
    ∧ LearningPath.subject created = subject
    ∧ LearningPath.description created
      = default "" (PathData.description data)
    ∧ LearningPath.difficulty_level created
      = default 2 (PathData.difficulty_level data)
    ∧ LearningPath.estimated_hours created = PathData.estimated_hours data
    ∧ LearningPath.path_metadata created
      = mkPathMetadata (default [] (PathData.goals data))
          (default [] (PathData.prerequisites data))
          (default "beginner" (PathData.difficulty data))
    ∧ LearningPath.created_by created = PathData.created_by data
    ∧ LearningPath.contents created = [].
Proof.
  intros Ht Hs Hc. unfold create_learning_path. rewrite Ht, Hc, Hs.
  eexists. split; [done|]. simpl.
  split_and!; try done. apply next_path_id_fresh.
Qed.

Lemma create_path_appends_witness :
  ∃ created,
    create_learning_path "2025-03-05T09:00:00"
      (PathData.mk (Some "Algebra") None (Some "math") None None None None
         None None)
      demo_db
    = (Ok (path_out created),
       with_paths (learning_paths demo_db ++ [created]) demo_db)
    ∧ LearningPath.difficulty_level created = 2
    ∧ LearningPath.contents created = [].
Proof.
  destruct (create_path_appends "2025-03-05T09:00:00"
              (PathData.mk (Some "Algebra") None (Some "math") None None
                 None None None None)
              demo_db "Algebra" "math" eq_refl eq_refl eq_refl)
    as (created & Hrun & _ & _ & _ & _ & Hlevel & _ & _ & _ & Hcontents).
  exists created. split_and!; assumption.
Defined.

(** X12.  Creating a path and then fetching the id that the creation
    answered returns the created path, not the mock: same title,
    description, subject, difficulty level, estimated hours and metadata,
    and an empty list of contents. *)
Theorem create_then_get_path now data db title subject user_id :
  PathData.title data = Some title →
  PathData.subject data = Some subject →
  creator_error (PathData.created_by data) db = None →
  ∃ answer detail,
    (create_learning_path now data db).1 = Ok answer
    ∧ get_learning_path (PathOut.id answer) user_id
        (create_learning_path now data db).2
      = Ok detail
    ∧ PathDetail.id detail = PathOut.id answer
    ∧ PathDetail.title detail = title
    ∧ PathDetail.subject detail = subject
    ∧ PathDetail.description detail = PathOut.description answer
    ∧ PathDetail.difficulty_level detail = PathOut.difficulty_level answer
    ∧ PathDetail.estimated_hours detail = PathOut.estimated_hours answer
    ∧ PathDetail.metadata detail
      = mkPathMetadata (default [] (PathData.goals data))
          (default [] (PathData.prerequisites data))
          (default "beginner" (PathData.difficulty data))
    ∧ PathDetail.contents detail = []
    ∧ PathDetail.created_at detail = None.
Proof.
  intros Ht Hs Hc. unfold create_learning_path. rewrite Ht, Hc, Hs.
  match goal with
  | |- context [add_path ?a ?b ?c ?d ?e ?f ?g ?h ?i] =>
      pose proof (query_path_add a b c d e f g h i) as Hq;
      destruct (add_path a b c d e f g h i) as [row db'] eqn:Hadd
  end.
  simpl in Hq. exists (path_out row). eexists. split; [done|].
  assert (LearningPath.id row = next_path_id db) as Hid.
  { unfold add_path in Hadd. by injection Hadd as <- _. }
  cbn [snd path_out PathOut.id]. rewrite Hid.
  unfold get_learning_path. rewrite Hq. split; [done|].
  unfold add_path in Hadd. injection Hadd as <- _. by simpl.
Qed.

Lemma create_then_get_path_witness :
  ∃ answer detail,
    (create_learning_path "2025-03-05T09:00:00"
       (PathData.mk (Some "Algebra") None (Some "math") None None None None
          None None)
       demo_db).1
    = Ok answer
    ∧ get_learning_path (PathOut.id answer) None
        (create_learning_path "2025-03-05T09:00:00"
           (PathData.mk (Some "Algebra") None (Some "math") None None None
              None None None)
           demo_db).2
      = Ok detail
    ∧ PathDetail.title detail = "Algebra"
    ∧ PathDetail.contents detail = [].
Proof.
  destruct (create_then_get_path "2025-03-05T09:00:00"
              (PathData.mk (Some "Algebra") None (Some "math") None None
                 None None None None)
              demo_db "Algebra" "math" None eq_refl eq_refl eq_refl)
    as (answer & detail & Hrun & Hget & _ & Htitle & _ & _ & _ & _ & _
        & Hcontents & _).
  exists answer, detail. split_and!; assumption.
Defined.

(** ** Path detail, continued *)

(** X13.  For a stored path the answer is built from the stored row, never
    from the mock: its id is the requested id, it lists one summary per
    content of the path, in order, and it has no created_at.  Its
    user_progress is the snapshot of the caller's enrollment on the path
    when a nonzero user_id with such an enrollment is supplied, and null
    when user_id is absent, 0, or not enrolled. *)
Theorem get_path_stored path_id user_id db path :
  first (query_path path_id db) = Some path →
  ∃ detail,
    get_learning_path path_id user_id db = Ok detail
    ∧ PathDetail.id detail = path_id
    ∧ PathDetail.title detail = LearningPath.title path
    ∧ PathDetail.subject detail = LearningPath.subject path
    ∧ PathDetail.metadata detail = LearningPath.path_metadata path
    ∧ PathDetail.created_at detail = None
    ∧ PathDetail.contents detail = content_out <$> LearningPath.contents path
    ∧ ContentOut.id <$> PathDetail.contents detail
      = LearningContent.id <$> LearningPath.contents path
    ∧ (∀ uid, user_id = Some uid → uid ≠ 0 →
         PathDetail.user_progress detail
         = user_progress_of <$> first (query_enrollment uid path_id db))
    ∧ (user_id = None ∨ user_id = Some 0 →
         PathDetail.user_progress detail = None).
Proof.
  intros Hp. unfold get_learning_path. rewrite Hp. eexists.
  split; [done|]. cbn [PathDetail.id PathDetail.title PathDetail.subject
    PathDetail.metadata PathDetail.created_at PathDetail.contents
    PathDetail.user_progress].
  rewrite foldl_append_map. cbn [app].
  split_and!; try done.
  - by apply first_filter_Some in Hp as [_ ?].
  - rewrite <- list_fmap_compose. by apply list_fmap_ext.
  - intros uid -> Hnz. unfold Py.truthy.
    destruct (Z.eqb_spec uid 0); [done|]. simpl.
    by destruct (first (query_enrollment uid path_id db)).
  - by intros [-> | ->].
Qed.

Lemma get_path_stored_witness :
  ∃ detail,
    get_learning_path 1 (Some 1) demo_db = Ok detail
    ∧ ContentOut.id <$> PathDetail.contents detail = [101; 102]
    ∧ PathDetail.user_progress detail
      = Some (user_progress_of (demo_enrollment 1 1 (Some ∅))).
Proof.
  destruct (get_path_stored 1 (Some 1) demo_db
              (demo_path 1 [demo_content 101; demo_content 102]) eq_refl)
    as (detail & Hrun & _ & _ & _ & _ & _ & _ & Hids & Hup & _).
  exists detail. split_and!; [assumption | assumption |].
  rewrite (Hup 1); [reflexivity | reflexivity | lia].
Defined.

(** The answer of [get_learning_path] for a stored path and a nonzero
    caller. *)
Lemma get_path_user_progress path_id uid db path :
  first (query_path path_id db) = Some path →
  uid ≠ 0 →
  PathDetail.user_progress
    <$> body (get_learning_path path_id (Some uid) db)
  = Some (user_progress_of <$> first (query_enrollment uid path_id db)).
Proof.
  intros Hp Hnz. unfold get_learning_path. rewrite Hp. simpl.
  destruct (Z.eqb_spec uid 0); [done|]. simpl.
  by destruct (first (query_enrollment uid path_id db)).
Qed.

(** X14.  After an enrollment request for an existing user (nonzero id) and
    an existing path, fetching the path for that user reports the progress,
    the content_progress and the enrolled_at that the enrollment request
    answered. *)
Theorem enroll_then_get_path now data db user path :
  let uid := EnrollmentData.user_id data in
  let pid := EnrollmentData.path_id data in
  first (query_user uid db) = Some user →
  first (query_path pid db) = Some path →
  uid ≠ 0 →
  ∃ answer detail,
    (enroll_in_learning_path now data db).1 = Ok answer
    ∧ get_learning_path pid (Some uid)
        (enroll_in_learning_path now data db).2
      = Ok detail
    ∧ PathDetail.user_progress detail
      = Some (UserProgress.mk (EnrollmentOut.progress answer)
                (EnrollmentOut.content_progress answer)
                (EnrollmentOut.enrolled_at answer)).
Proof.
  intros uid pid Hu Hp Hnz.
  assert (∃ e,
    (enroll_in_learning_path now data db).1 = Ok (enrollment_out e)
    ∧ first (query_enrollment uid pid
               (enroll_in_learning_path now data db).2) = Some e
    ∧ learning_paths (enroll_in_learning_path now data db).2
      = learning_paths db) as (e & Hrun & He & Hpaths).
  { unfold enroll_in_learning_path. fold uid pid. rewrite Hu, Hp.
    destruct (first (query_enrollment uid pid db)) as [e|] eqn:He.
    - by exists e.
    - eexists. split; [done|]. split; [|done].
      by apply query_enrollment_add. }
  exists (enrollment_out e).
  assert (first (query_path pid (enroll_in_learning_path now data db).2)
          = Some path) as Hp'.
  { unfold query_path. by rewrite Hpaths. }
  destruct (get_learning_path pid (Some uid)
              (enroll_in_learning_path now data db).2) as [detail|] eqn:Hg.
  - exists detail. split; [done|]. split; [done|].
    pose proof (get_path_user_progress pid uid _ path Hp' Hnz) as Hup.
    rewrite Hg, He in Hup. simpl in Hup. by injection Hup as ->.
  - unfold get_learning_path in Hg. by rewrite Hp' in Hg.
Qed.

Lemma enroll_then_get_path_witness :
  ∃ answer detail,
    (enroll_in_learning_path "2025-03-05T09:00:00"
       (EnrollmentData.mk 2 4 None) demo_db).1
    = Ok answer
    ∧ get_learning_path 4 (Some 2)
        (enroll_in_learning_path "2025-03-05T09:00:00"
           (EnrollmentData.mk 2 4 None) demo_db).2
      = Ok detail
    ∧ PathDetail.user_progress detail
      = Some (UserProgress.mk (EnrollmentOut.progress answer)
                (EnrollmentOut.content_progress answer)
                (EnrollmentOut.enrolled_at answer)).
Proof.
  apply (enroll_then_get_path "2025-03-05T09:00:00"
           (EnrollmentData.mk 2 4 None) demo_db (User.mk 2)
           (demo_path 4 []));
    [reflexivity | reflexivity | simpl; lia].
Defined.

(** X15.  After a progress update that names an existing, nonzero content
    id, fetching the path (when it is stored) for that user (nonzero id)
    reports the progress and the content_progress that the update
    answered. *)
Theorem update_then_get_path now path_id user_id cid progress db enrollment
    content path :
  first (query_enrollment user_id path_id db) = Some enrollment →
  first (query_content cid db) = Some content →
  cid ≠ 0 →
  first (query_path path_id db) = Some path →
  user_id ≠ 0 →
  ∃ answer detail snapshot,
    (update_path_progress now path_id
       (ProgressData.mk (Some cid) progress) user_id db).1
    = Ok answer
    ∧ get_learning_path path_id (Some user_id)
        (update_path_progress now path_id
           (ProgressData.mk (Some cid) progress) user_id db).2
      = Ok detail
    ∧ PathDetail.user_progress detail = Some snapshot
    ∧ UserProgress.overall_progress snapshot = ProgressOut.progress answer
    ∧ UserProgress.content_progress snapshot
      = ProgressOut.content_progress answer
    ∧ UserProgress.content_progress snapshot !! Py.KStr (Py.str cid)
      = Some (default 0%Q progress).
Proof.
  intros He Hc Hnz Hp Hu.
  rewrite (update_path_progress_write _ _ _ _ _ _ _ _ He Hc Hnz).
  cbn [fst snd].
  pose proof (query_enrollment_record now path_id user_id cid
                (default 0%Q progress) enrollment db He) as Hq.
  destruct (record_content_progress_fields now path_id cid
              (default 0%Q progress) enrollment db) as (Hcp & _).
  assert (first (query_path path_id
                   (record_content_progress now path_id cid
                      (default 0%Q progress) enrollment db).2)
          = Some path) as Hp'.
  { by rewrite record_content_progress_eq. }
  destruct (record_content_progress now path_id cid
              (default 0%Q progress) enrollment db) as [row db'].
  cbn [fst snd] in *.
  pose proof (get_path_user_progress path_id user_id _ path Hp' Hu) as Hup.
  destruct (get_learning_path path_id (Some user_id) db')
    as [detail|] eqn:Hg; [|done].
  rewrite Hq in Hup. cbn [body fmap option_fmap option_map] in Hup.
  injection Hup as Hup.
  exists (progress_out row), detail, (user_progress_of row).
  split_and!; [done|done|exact Hup|done|done|].
  cbn [user_progress_of UserProgress.content_progress]. rewrite Hcp.
  cbn [Py.or_empty default from_option id]. by rewrite lookup_insert_eq.
Qed.

Lemma update_then_get_path_witness :
  ∃ answer detail snapshot,
    (update_path_progress "2025-03-03T09:00:00" 1
       (ProgressData.mk (Some 101) (Some 40%Q)) 1 demo_db).1
    = Ok answer
    ∧ get_learning_path 1 (Some 1)
        (update_path_progress "2025-03-03T09:00:00" 1
           (ProgressData.mk (Some 101) (Some 40%Q)) 1 demo_db).2
      = Ok detail
    ∧ PathDetail.user_progress detail = Some snapshot
    ∧ UserProgress.content_progress snapshot !! Py.KStr (Py.str 101)
      = Some 40%Q.
Proof.
  destruct (update_then_get_path "2025-03-03T09:00:00" 1 1 101 (Some 40%Q)
              demo_db (demo_enrollment 1 1 (Some ∅)) (demo_content 101)
              (demo_path 1 [demo_content 101; demo_content 102]))
    as (answer & detail & snapshot & Hrun & Hget & Hup & _ & _ & Hentry);
    [reflexivity | reflexivity | lia | reflexivity | lia |].
  exists answer, detail, snapshot. split_and!; assumption.
Defined.

(** ** Listings, continued *)

Lemma filter_all {A : Type} (P : A → Prop) `{!∀ x, Decision (P x)}
    (l : list A) :
  (∀ x, x ∈ l → P x) → filter P l = l.
Proof.
  induction l as [|x l IH]; intros Hl; [done|].
  rewrite filter_cons_True by (apply Hl; by left).
  f_equal. apply IH. intros y Hy. apply Hl. by right.
Qed.

(** The recommendation list in closed form: the [notin_] filter is applied
    only when the user has enrollments, which amounts to the same. *)
Lemma get_recommended_eq user_id db user :
  first (query_user user_id db) = Some user →
  get_recommended_learning_paths user_id db
  = Ok (recommended_path
          <$> take 5 (filter (not_enrolled user_id db) (learning_paths db))).
Proof.
  intros Hu. unfold get_recommended_learning_paths. rewrite Hu.
  rewrite foldl_append_map. cbn [app]. unfold limit. do 3 f_equal.
  destruct (PathEnrollment.path_id <$> query_enrollments_of user_id db)
    as [|x ids] eqn:Hids.
  - apply fmap_nil_inv in Hids. symmetry. apply filter_all.
    intros p _. unfold not_enrolled. rewrite Hids. constructor.
  - rewrite <- Hids. apply list_filter_iff. intros p.
    unfold not_enrolled. rewrite Forall_forall. split.
    + intros Hnot e He Heq. apply Hnot. rewrite <- Heq.
      by apply list_elem_of_fmap_2.
    + intros Hall Hin. apply list_elem_of_fmap in Hin as (e & Heq & He).
      by apply (Hall e He).
Qed.

Lemma get_enrolled_eq user_id db :
  get_enrolled_learning_paths user_id db
  = Ok (omap
          (λ e, (λ p, enrolled_path p e)
                  <$> first (query_path (PathEnrollment.path_id e) db))
          (query_enrollments_of user_id db)).
Proof.
  unfold get_enrolled_learning_paths.
  destruct (query_enrollments_of user_id db) as [|e l] eqn:Hq; [done|].
  by rewrite foldl_append_omap.
Qed.

(** X16.  For an existing user, the recommendation is exactly the first
    five, in storage order, of the stored paths on which the user has no
    enrollment: every entry is a stored path, and when at most five paths
    qualify all of them are returned. *)
Theorem recommended_first_five user_id db user :
  first (query_user user_id db) = Some user →
  ∃ recommended,
    get_recommended_learning_paths user_id db = Ok recommended
    ∧ recommended
      = recommended_path
          <$> take 5 (filter (not_enrolled user_id db) (learning_paths db))
    ∧ (∀ r, r ∈ recommended →
         ∃ p, p ∈ learning_paths db ∧ r = recommended_path p)
    ∧ ((length (filter (not_enrolled user_id db) (learning_paths db)) ≤ 5)%nat →
       ∀ p, p ∈ learning_paths db → not_enrolled user_id db p →
            recommended_path p ∈ recommended)
    ∧ (query_enrollments_of user_id db = [] →
       recommended = recommended_path <$> take 5 (learning_paths db)).
Proof.
  intros Hu. eexists. split; [by eapply get_recommended_eq|].
  split; [done|]. split_and!.
  - intros r Hr. apply list_elem_of_fmap in Hr as (p & -> & Hp).
    apply subseteq_take in Hp. apply list_elem_of_filter in Hp as [_ Hp].
    by exists p.
  - intros Hlen p Hp Hfree. apply list_elem_of_fmap_2.
    rewrite take_ge by done. by apply list_elem_of_filter.
  - intros Hnone. do 2 f_equal. apply filter_all.
    intros p _. unfold not_enrolled. rewrite Hnone. constructor.
Qed.

Lemma recommended_first_five_witness :
  ∃ recommended,
    get_recommended_learning_paths 2 demo_db = Ok recommended
    ∧ recommended = recommended_path <$> take 5 (learning_paths demo_db).
Proof.
  destruct (recommended_first_five 2 demo_db (User.mk 2) eq_refl)
    as (recommended & Hrun & _ & _ & _ & Hnone).
  exists recommended. split; [assumption|]. apply Hnone. reflexivity.
Defined.

(** After an enrollment request for an existing user and path, the store
    holds an enrollment of that user on that path, and the users and paths
    tables are as before. *)
Lemma enroll_stores_enrollment now data db user path :
  let uid := EnrollmentData.user_id data in
  let pid := EnrollmentData.path_id data in
  first (query_user uid db) = Some user →
  first (query_path pid db) = Some path →
  ∃ e,
    (enroll_in_learning_path now data db).1 = Ok (enrollment_out e)
    ∧ e ∈ path_enrollments (enroll_in_learning_path now data db).2
    ∧ PathEnrollment.user_id e = uid
    ∧ PathEnrollment.path_id e = pid
    ∧ users (enroll_in_learning_path now data db).2 = users db
    ∧ learning_paths (enroll_in_learning_path now data db).2
      = learning_paths db.
Proof.
  intros uid pid Hu Hp. unfold enroll_in_learning_path. fold uid pid.
  rewrite Hu, Hp.
  destruct (first (query_enrollment uid pid db)) as [e|] eqn:He.
  - exists e. apply first_filter_Some in He as [Hin [? ?]].
    by split_and!.
  - eexists. split; [done|]. simpl. split_and!; try done.
    apply elem_of_app. right. by apply list_elem_of_singleton.
Qed.

(** X17.  After an enrollment request for an existing user and path, the
    user's listing of enrolled paths has an entry for that path. *)
Theorem enroll_then_enrolled now data db user path :
  let uid := EnrollmentData.user_id data in
  let pid := EnrollmentData.path_id data in
  first (query_user uid db) = Some user →
  first (query_path pid db) = Some path →
  ∃ paths entry,
    get_enrolled_learning_paths uid (enroll_in_learning_path now data db).2
    = Ok paths
    ∧ entry ∈ paths
    ∧ EnrolledPath.id entry = pid
    ∧ EnrolledPath.title entry = LearningPath.title path
    ∧ EnrolledPath.content_count entry
      = length (LearningPath.contents path).
Proof.
  intros uid pid Hu Hp.
  destruct (enroll_stores_enrollment now data db user path Hu Hp)
    as (e & _ & Hin & Heu & Hep & _ & Hpaths).
  fold uid pid in Heu, Hep.
  rewrite get_enrolled_eq. eexists _, (enrolled_path path e).
  split; [done|]. split_and!; try done.
  - apply list_elem_of_omap. exists e. split.
    + unfold query_enrollments_of. by apply list_elem_of_filter.
    + unfold query_path. rewrite Hpaths, Hep.
      unfold query_path in Hp. by rewrite Hp.
  - simpl. by apply first_filter_Some in Hp as [_ ?].
Qed.

Lemma enroll_then_enrolled_witness :
  ∃ paths entry,
    get_enrolled_learning_paths 2
      (enroll_in_learning_path "2025-03-05T09:00:00"
         (EnrollmentData.mk 2 4 None) demo_db).2
    = Ok paths
    ∧ entry ∈ paths
    ∧ EnrolledPath.id entry = 4.
Proof.
  destruct (enroll_then_enrolled "2025-03-05T09:00:00"
              (EnrollmentData.mk 2 4 None) demo_db (User.mk 2)
              (demo_path 4 []) eq_refl eq_refl)
    as (paths & entry & Hrun & Hin & Hid & _).
  exists paths, entry. split_and!; assumption.
Defined.

(** X18.  After an enrollment request for an existing user and path, that
    path is not among the user's recommendations. *)
Theorem enroll_then_not_recommended now data db user path :
  let uid := EnrollmentData.user_id data in
  let pid := EnrollmentData.path_id data in
  first (query_user uid db) = Some user →
  first (query_path pid db) = Some path →
  ∃ recommended,
    get_recommended_learning_paths uid
      (enroll_in_learning_path now data db).2
    = Ok recommended
    ∧ ∀ r, r ∈ recommended → RecommendedPath.id r ≠ pid.
Proof.
  intros uid pid Hu Hp.
  destruct (enroll_stores_enrollment now data db user path Hu Hp)
    as (e & _ & Hin & Heu & Hep & Husers & _).
  fold uid pid in Heu, Hep.
  assert (first (query_user uid (enroll_in_learning_path now data db).2)
          = Some user) as Hu'.
  { unfold query_user. by rewrite Husers. }
  rewrite (get_recommended_eq _ _ _ Hu'). eexists. split; [done|].
  intros r Hr Hid. apply list_elem_of_fmap in Hr as (p & -> & Hp').
  apply subseteq_take in Hp'. apply list_elem_of_filter in Hp' as [Hfree _].
  unfold not_enrolled in Hfree. rewrite Forall_forall in Hfree.
  apply (Hfree e).
  - unfold query_enrollments_of. by apply list_elem_of_filter.
  - simpl in Hid. congruence.
Qed.

Lemma enroll_then_not_recommended_witness :
  ∃ recommended,
    get_recommended_learning_paths 2
      (enroll_in_learning_path "2025-03-05T09:00:00"
         (EnrollmentData.mk 2 4 None) demo_db).2
    = Ok recommended
    ∧ ∀ r, r ∈ recommended → RecommendedPath.id r ≠ 4.
Proof.
  apply (enroll_then_not_recommended "2025-03-05T09:00:00"
           (EnrollmentData.mk 2 4 None) demo_db (User.mk 2)
           (demo_path 4 []));
    reflexivity.
Defined.

(** X19.  For an enrollment whose path is no longer stored, a progress
    update that names an existing, nonzero content id still succeeds and
    records the value, but fetching the path for that user (nonzero id)
    answers the mock, whose user_progress is the fixed empty snapshot. *)
Theorem update_on_removed_path_not_shown now path_id user_id cid progress db
    enrollment content :
  first (query_enrollment user_id path_id db) = Some enrollment →
  first (query_content cid db) = Some content →
  cid ≠ 0 →
  first (query_path path_id db) = None →
  user_id ≠ 0 →
  ∃ answer detail,
    (update_path_progress now path_id
       (ProgressData.mk (Some cid) progress) user_id db).1
    = Ok answer
    ∧ ProgressOut.content_progress answer !! Py.KStr (Py.str cid)
      = Some (default 0%Q progress)
    ∧ get_learning_path path_id (Some user_id)
        (update_path_progress now path_id
           (ProgressData.mk (Some cid) progress) user_id db).2
      = Ok detail
    ∧ PathDetail.user_progress detail = Some mock_user_progress.
Proof.
  intros He Hc Hnz Hp Hu.
  rewrite (update_path_progress_write _ _ _ _ _ _ _ _ He Hc Hnz).
  cbn [fst snd].
  destruct (record_content_progress_fields now path_id cid
              (default 0%Q progress) enrollment db) as (Hcp & _).
  assert (first (query_path path_id
                   (record_content_progress now path_id cid
                      (default 0%Q progress) enrollment db).2)
          = None) as Hp'.
  { by rewrite record_content_progress_eq. }
  destruct (record_content_progress now path_id cid
              (default 0%Q progress) enrollment db) as [row db'].
  cbn [fst snd] in *.
  exists (progress_out row). eexists. split; [done|]. split.
  - cbn [progress_out ProgressOut.content_progress]. rewrite Hcp.
    cbn [Py.or_empty default from_option id]. by rewrite lookup_insert_eq.
  - unfold get_learning_path. rewrite Hp'. split; [done|].
    cbn [mock_path PathDetail.user_progress Py.truthy].
    by destruct (Z.eqb_spec user_id 0).
Qed.

Lemma update_on_removed_path_not_shown_witness :
  ∃ answer detail,
    (update_path_progress "2025-03-03T09:00:00" 9
       (ProgressData.mk (Some 101) (Some 40%Q)) 1 demo_db).1
    = Ok answer
    ∧ ProgressOut.content_progress answer !! Py.KStr (Py.str 101)
      = Some 40%Q
    ∧ get_learning_path 9 (Some 1)
        (update_path_progress "2025-03-03T09:00:00" 9
           (ProgressData.mk (Some 101) (Some 40%Q)) 1 demo_db).2
      = Ok detail
    ∧ PathDetail.user_progress detail = Some mock_user_progress.
Proof.
  apply (update_on_removed_path_not_shown "2025-03-03T09:00:00" 9 1 101
           (Some 40%Q) demo_db (demo_enrollment 3 9 (Some ∅))
           (demo_content 101));
    [reflexivity | reflexivity | lia | reflexivity | lia].
Defined.
